(** * Azure Data Explorer MCP server: handler and router

    A shallow embedding of [KustoHandler] (kusto_handler.ts) and of the
    tool-call router of [ADXServer] (azure-data-explorer/src/index.ts, the
    server that logs a TOOL_INVOKED event per call and routes the tool
    [execute_kusto_query]).

    The TypeScript code is asynchronous but strictly sequential: every
    [await] is modelled as a plain call.  Mutable object fields and the
    ambient world (process environment, console, credential provider,
    Kusto client library) are threaded explicitly; exceptions are values
    of the monad, and state written before a [throw] survives it, as in
    JavaScript. *)

From Stdlib Require Import QArith_base.
From stdpp Require Import base strings list gmap pretty.

Open Scope string_scope.
Set Warnings "-register-all".

(** ** JavaScript values *)

(** The result of [JSON.parse]. Numbers are the rationals denoted by the
    parsed doubles; a string is a sequence of code units. *)
Inductive json : Type :=
| JNull
| JBool (b : bool)
| JNum (q : Q)
| JStr (s : string)
| JArr (items : list json)
| JObj (fields : list (string * json)).

(** ToBoolean on a parsed value. *)
Definition truthy (v : json) : bool :=
  match v with
  | JNull => false
  | JBool b => b
  | JNum q => negb (Qnum q =? 0)%Z
  | JStr s => negb (String.eqb s "")
  | JArr _ | JObj _ => true
  end.

(** ToBoolean on a value of type [string | undefined]. *)
Definition truthy_str (o : option string) : bool :=
  match o with
  | Some s => negb (String.eqb s "")
  | None => false
  end.

(** [a || b] at type [string | undefined]. *)
Definition js_or (a b : option string) : option string :=
  if truthy_str a then a else b.

(** ToBoolean on a value of type [any | undefined]. *)
Definition truthy_opt (o : option json) : bool :=
  match o with
  | Some v => truthy v
  | None => false
  end.

(** Own-property lookup in a parsed object. *)
Fixpoint assoc (key : string) (fields : list (string * json)) : option json :=
  match fields with
  | [] => None
  | (k, v) :: rest => if String.eqb k key then Some v else assoc key rest
  end.

(** [haystack.includes(needle)], as used by jest's [toContain] on strings. *)
Fixpoint includes (needle haystack : string) : bool :=
  String.prefix needle haystack ||
  match haystack with
  | EmptyString => false
  | String _ rest => includes needle rest
  end.

(** ** Exceptions *)

Inductive ErrorCode : Type :=
| ParseError | InvalidRequest | MethodNotFound | InvalidParams | InternalError.

(** Thrown values. Every exception raised by this code or by a collaborator
    is an [Error] object (possibly of a subclass: [TypeError],
    [SyntaxError], a credential or Kusto service error) carrying a message
    string, or the protocol's [McpError]. *)
Inductive exn : Type :=
| JsError (name : string) (msg : string)
| McpError (code : ErrorCode) (msg : string).

(** [error.message] *)
Definition message (e : exn) : string :=
  match e with
  | JsError _ m => m
  | McpError _ m => m
  end.

Definition Error (m : string) : exn := JsError "Error" m.
Definition TypeError (m : string) : exn := JsError "TypeError" m.

Inductive outcome (A : Type) : Type :=
| Ok (a : A)
| Throw (e : exn).
Arguments Ok {A} a.
Arguments Throw {A} e.

(** [v.prop] on a parsed value: [null] has no properties and the access
    throws; a primitive or an array has no own or inherited property of the
    names used here; [None] is [undefined]. *)
Definition get_prop (v : json) (prop : string) : outcome (option json) :=
  match v with
  | JNull =>
      Throw (TypeError ("Cannot read properties of null (reading '" +:+ prop +:+ "')"))
  | JObj fields => Ok (assoc prop fields)
  | _ => Ok None
  end.

(** ** Data of the handler *)

(** interface KustoQueryParams *)
Record KustoQueryParams : Type := {
  query : string;
  database : option string;
  clusterUrl : option string
}.

(** A constructed [KustoClient]: its identity and the endpoint it is bound to. *)
Record client : Type := {
  client_id : nat;
  client_url : string
}.

Global Instance client_eq_dec : EqDecision client.
Proof. solve_decision. Defined.

(** What [client.execute] resolves to: each primary result is represented by
    the text its [toString()] returns. *)
Record KustoResults : Type := {
  primaryResults : list string
}.

(** The [input] echo of the envelope. *)
Record input_echo : Type := {
  in_clusterUrl : string;
  in_database : string;
  in_query : string
}.

(** The object built by [prepareResponseObj]; an absent key is [None]. *)
Record responseObj : Type := {
  success : bool;
  input : input_echo;
  data : option json;
  r_message : option string;
  error : option string
}.

Record content_block : Type := {
  type : string;
  text : string
}.

(** The transport response; [isError] is absent on the success path. *)
Record response : Type := {
  content : list content_block;
  isError : option bool
}.

(** ** The ambient world *)

Inductive event : Type :=
| ConsoleLog (args : list string)
| ConsoleError (label : string) (e : exn)
| NewCredential
| GetToken (scope : string)
| WithTokenCredential (url : string)
| NewClient (url : string)
| Execute (c : client) (db q : string).

(** Calls that leave the process: token acquisition and query execution. *)
Definition is_network (e : event) : bool :=
  match e with
  | GetToken _ | Execute _ _ _ => true
  | _ => false
  end.

Definition is_GetToken (e : event) : bool :=
  match e with GetToken _ => true | _ => false end.

Definition is_NewClient (e : event) : bool :=
  match e with NewClient _ => true | _ => false end.

Definition is_Execute (e : event) : bool :=
  match e with Execute _ _ _ => true | _ => false end.

Definition count (p : event -> bool) (t : list event) : nat :=
  length (filter (fun e => p e = true) t).

(** [process.env] and the chronological record of calls made so far. *)
Record world : Type := {
  env : gmap string string;
  trace : list event
}.

(** The third-party collaborators. Each may answer differently from call to
    call: it is given the record of all earlier calls. *)
Record collaborators : Type := {
  AzureCliCredential_new : list event -> outcome unit;
  credential_getToken : list event -> string -> outcome unit;
  KustoConnectionStringBuilder_withTokenCredential : list event -> string -> outcome unit;
  KustoClient_new : list event -> string -> outcome unit;
  client_execute : list event -> client -> string -> string -> outcome KustoResults;
  JSON_parse : string -> outcome json;
  JSON_stringify : responseObj -> string;
  (** ToString of a value interpolated in a template literal *)
  ToString : json -> string
}.

(** class KustoHandler: its three private fields *)
Record KustoHandler : Type := {
  currentClusterUrl : option string;
  kustoClient : option client;
  initialized : bool
}.

(** [new KustoHandler()] *)
Definition new_KustoHandler : KustoHandler :=
  {| currentClusterUrl := None; kustoClient := None; initialized := false |}.

(** ** The monad of methods

    A method runs on a state [S] (the object's fields and the world) and
    either returns or throws; the state it leaves behind is kept in both
    cases. *)

Definition M (S A : Type) : Type := S -> outcome A * S.

Definition ret {S A} (a : A) : M S A := fun s => (Ok a, s).

Definition bind {S A B} (m : M S A) (k : A -> M S B) : M S B :=
  fun s =>
    match m s with
    | (Ok a, s') => k a s'
    | (Throw e, s') => (Throw e, s')
    end.

Definition throw {S A} (e : exn) : M S A := fun s => (Throw e, s).

(** [try { m } catch (error) { handler error }] *)
Definition try_catch {S A} (m : M S A) (handler : exn -> M S A) : M S A :=
  fun s =>
    match m s with
    | (Ok a, s') => (Ok a, s')
    | (Throw e, s') => handler e s'
    end.

(** [try { m } catch (error) { handler error } finally { finalizer }]: the
    finalizer runs on every path; if it throws, its exception replaces the
    pending completion. *)
Definition try_catch_finally {S A} (m : M S A) (handler : exn -> M S A)
    (finalizer : M S unit) : M S A :=
  fun s =>
    let '(r, s1) := try_catch m handler s in
    match finalizer s1 with
    | (Ok _, s2) => (r, s2)
    | (Throw e, s2) => (Throw e, s2)
    end.

(** Lifts a pure computation that may throw. *)
Definition lift {S A} (o : outcome A) : M S A := fun s => (o, s).

Notation "'let*' x ':=' m 'in' k" := (bind m (fun x => k))
  (at level 10, x name, m at level 99, k at level 200).
Notation "m ';;;' k" := (bind m (fun _ => k))
  (at level 100, k at level 200, right associativity).

(** Methods of the handler run on its fields and the world. *)
Abbreviation H := (M (KustoHandler * world)).

Definition get_this : H KustoHandler := fun s => (Ok (fst s), s).

Definition set_initialized (b : bool) : H unit :=
  fun '(h, w) =>
    (Ok tt, ({| currentClusterUrl := currentClusterUrl h;
                kustoClient := kustoClient h;
                initialized := b |}, w)).

Definition set_kustoClient (c : option client) : H unit :=
  fun '(h, w) =>
    (Ok tt, ({| currentClusterUrl := currentClusterUrl h;
                kustoClient := c;
                initialized := initialized h |}, w)).

Definition set_currentClusterUrl (u : option string) : H unit :=
  fun '(h, w) =>
    (Ok tt, ({| currentClusterUrl := u;
                kustoClient := kustoClient h;
                initialized := initialized h |}, w)).

(** [process.env.NAME] *)
Definition getenv (name : string) : H (option string) :=
  fun '(h, w) => (Ok (env w !! name), (h, w)).

Definition record (e : event) (w : world) : world :=
  {| env := env w; trace := trace w ++ [e] |}.

(** A call to a collaborator: the call is recorded, the collaborator answers
    from what happened before it. *)
Definition call {A} (e : event) (answer : list event -> outcome A) : H A :=
  fun '(h, w) => (answer (trace w), (h, record e w)).

Definition console_log (args : list string) : H unit :=
  call (ConsoleLog args) (fun _ => Ok tt).

Definition console_error (label : string) (e : exn) : H unit :=
  call (ConsoleError label e) (fun _ => Ok tt).

(** [a || fallback] where the fallback is a string literal. *)
Definition js_or_else (a : option string) (fallback : string) : string :=
  if truthy_str a then default fallback a else fallback.

(** The non-null assertion [e!]: erased at run time. Where it is used the
    two guards before it have made the operand defined (see
    [guards_resolve]); an undefined operand would fail at its first use. *)
Definition assert_defined (what : string) (o : option string) : H string :=
  match o with
  | Some s => ret s
  | None => throw (TypeError (what +:+ " is undefined"))
  end.

(** ** class KustoHandler *)

Section Handler.

Context (K : collaborators).

(** async initialize() *)
Definition initialize : H unit :=
  try_catch
    (set_initialized true ;;;
     console_log ["KustoHandler initialized successfully"])
    (fun error =>
       console_error "Failed to initialize KustoHandler:" error ;;;
       throw error).

(** private formatClusterUrl(cluster) *)
Definition formatClusterUrl (cluster : string) : string :=
  if String.prefix "https://" cluster then cluster
  else "https://" +:+ cluster +:+ ".kusto.windows.net".

(** The test [!this.kustoClient || this.currentClusterUrl !== formattedUrl]. *)
Definition must_reinitialize (this : KustoHandler) (formattedUrl : string) : bool :=
  negb (bool_decide (is_Some (kustoClient this)))
  || negb (bool_decide (currentClusterUrl this = Some formattedUrl)).

(** private async getClient(clusterUrl). The value returned is the field
    [this.kustoClient], of type [KustoClient | null]. *)
Definition getClient (clusterUrl : string) : H (option client) :=
  try_catch
    (let formattedUrl := formatClusterUrl clusterUrl in
     let* this := get_this in
     (if must_reinitialize this formattedUrl then
        console_log ["Initializing new Kusto client for cluster: " +:+ formattedUrl] ;;;
        call NewCredential (AzureCliCredential_new K) ;;;
        call (GetToken (formattedUrl +:+ "/.default"))
             (fun t => credential_getToken K t (formattedUrl +:+ "/.default")) ;;;
        call (WithTokenCredential formattedUrl)
             (fun t => KustoConnectionStringBuilder_withTokenCredential K t formattedUrl) ;;;
        let* c := call (NewClient formattedUrl)
                    (fun t => match KustoClient_new K t formattedUrl with
                              | Ok _ => Ok {| client_id := length t; client_url := formattedUrl |}
                              | Throw e => Throw e
                              end) in
        set_kustoClient (Some c) ;;;
        set_currentClusterUrl (Some formattedUrl)
      else ret tt) ;;;
     let* this := get_this in
     ret (kustoClient this))
    (fun error =>
       console_error "Error creating Kusto client:" error ;;;
       throw error).

Definition default_error : string :=
  "Unknown error occurred while executing Kusto query".

(** [data.length] interpolated in the message: the element count of an
    array, the code-unit count of a string, the [length] property of an
    object if it has one, [undefined] for anything else. *)
Definition length_text (d : json) : string :=
  match d with
  | JArr items => pretty (length items)
  | JStr s => pretty (String.length s)
  | JObj fields =>
      match assoc "length" fields with
      | Some v => ToString K v
      | None => "undefined"
      end
  | _ => "undefined"
  end.

(** private prepareResponseObj(params, success, data?, error?) *)
Definition prepareResponseObj (params : KustoQueryParams) (success : bool)
    (data : option json) (error : option string) : H responseObj :=
  let* env_cluster := getenv "KUSTO_DEFAULT_CLUSTER" in
  let* env_database := getenv "KUSTO_DEFAULT_DATABASE" in
  let clusterUrl := js_or_else (js_or (clusterUrl params) env_cluster) "" in
  let database := js_or_else (js_or (database params) env_database) "" in
  let baseInput :=
    {| in_clusterUrl := formatClusterUrl clusterUrl;
       in_database := database;
       in_query := query params |} in
  match data with
  | Some d =>
      if success && truthy d then
        ret {| success := success; input := baseInput;
               data := Some d;
               r_message := Some ("Query executed successfully. Retrieved "
                                  +:+ length_text d +:+ " rows.");
               error := None |}
      else
        ret {| success := success; input := baseInput;
               data := None; r_message := None;
               error := Some (js_or_else error default_error) |}
  | None =>
      ret {| success := success; input := baseInput;
             data := None; r_message := None;
             error := Some (js_or_else error default_error) |}
  end.

Definition not_initialized_msg : string :=
  "KustoHandler not initialized. Call initialize() first.".
Definition cluster_required_msg : string :=
  "Cluster URL must be provided either in parameters or via KUSTO_DEFAULT_CLUSTER environment variable".
Definition database_required_msg : string :=
  "Database must be provided either in parameters or via KUSTO_DEFAULT_DATABASE environment variable".

Definition text_content (responseText : string) : list content_block :=
  [ {| type := "text"; text := responseText |} ].

(** [rawData.data || []] *)
Definition rows_of (rawData_data : option json) : json :=
  if truthy_opt rawData_data then default (JArr []) rawData_data else JArr [].

(** The [try] block of executeQuery. *)
Definition executeQuery_try (params : KustoQueryParams) : H response :=
  let* this := get_this in
  (if negb (initialized this) then throw (Error not_initialized_msg) else ret tt) ;;;
  (* Validate required parameters *)
  let* env_cluster := getenv "KUSTO_DEFAULT_CLUSTER" in
  (if negb (truthy_str (clusterUrl params)) && negb (truthy_str env_cluster)
   then throw (Error cluster_required_msg) else ret tt) ;;;
  let* env_database := getenv "KUSTO_DEFAULT_DATABASE" in
  (if negb (truthy_str (database params)) && negb (truthy_str env_database)
   then throw (Error database_required_msg) else ret tt) ;;;
  let* clusterUrl := assert_defined "clusterUrl" (js_or (clusterUrl params) env_cluster) in
  let* database := assert_defined "database" (js_or (database params) env_database) in
  let* client := getClient clusterUrl in
  let* results :=
    match client with
    | Some client =>
        call (Execute client database (query params))
             (fun t => client_execute K t client database (query params))
    | None => throw (TypeError "Cannot read properties of null (reading 'execute')")
    end in
  let* rawString :=
    match primaryResults results with
    | first :: _ => ret first
    | [] => throw (TypeError "Cannot read properties of undefined (reading 'toString')")
    end in
  let* rawData := lift (JSON_parse K rawString) in
  let* rawData_data := lift (get_prop rawData "data") in
  let rowData := rows_of rawData_data in
  let* responseObj := prepareResponseObj params true (Some rowData) None in
  let responseText := JSON_stringify K responseObj in
  console_log ["Response:"; responseText] ;;;
  ret {| content := text_content responseText; isError := None |}.

(** The [catch (error)] block of executeQuery. *)
Definition executeQuery_catch (params : KustoQueryParams) (error : exn) : H response :=
  let* responseObj := prepareResponseObj params false None (Some (message error)) in
  let responseText := JSON_stringify K responseObj in
  ret {| content := text_content responseText; isError := Some true |}.

(** async executeQuery(params) *)
Definition executeQuery (params : KustoQueryParams) : H response :=
  try_catch (executeQuery_try params) (executeQuery_catch params).

(** What the [catch] block builds from an exception. *)
Definition failure_envelope (params : KustoQueryParams) (w : world) (e : exn) : responseObj :=
  {| success := false;
     input :=
       {| in_clusterUrl :=
            formatClusterUrl
              (js_or_else (js_or (clusterUrl params) (env w !! "KUSTO_DEFAULT_CLUSTER")) "");
          in_database :=
            js_or_else (js_or (database params) (env w !! "KUSTO_DEFAULT_DATABASE")) "";
          in_query := query params |};
     data := None;
     r_message := None;
     error := Some (js_or_else (Some (message e)) default_error) |}.

Definition failure_response (params : KustoQueryParams) (w : world) (e : exn) : response :=
  {| content := text_content (JSON_stringify K (failure_envelope params w e));
     isError := Some true |}.

(** What the [try] block builds from the rows [d] it extracted. *)
Definition success_envelope (params : KustoQueryParams) (w : world) (d : json) : responseObj :=
  {| success := true;
     input :=
       {| in_clusterUrl :=
            formatClusterUrl
              (js_or_else (js_or (clusterUrl params) (env w !! "KUSTO_DEFAULT_CLUSTER")) "");
          in_database :=
            js_or_else (js_or (database params) (env w !! "KUSTO_DEFAULT_DATABASE")) "";
          in_query := query params |};
     data := Some d;
     r_message := Some ("Query executed successfully. Retrieved " +:+ length_text d +:+ " rows.");
     error := None |}.

Definition success_response (params : KustoQueryParams) (w : world) (d : json) : response :=
  {| content := text_content (JSON_stringify K (success_envelope params w d));
     isError := None |}.

(** The cached client is bound to the cached endpoint. *)
Definition cache_consistent (this : KustoHandler) : Prop :=
  forall cl, kustoClient this = Some cl -> currentClusterUrl this = Some (client_url cl).

(** A parsed payload without a [data] member. *)
Definition lacks_data_field (rawData : json) : Prop :=
  match rawData with
  | JObj fields => assoc "data" fields = None
  | _ => True
  end.

(** The calls getClient makes when it builds a client for [formattedUrl]. *)
Definition connection_calls (formattedUrl : string) : list event :=
  [ ConsoleLog ["Initializing new Kusto client for cluster: " +:+ formattedUrl];
    NewCredential;
    GetToken (formattedUrl +:+ "/.default");
    WithTokenCredential formattedUrl;
    NewClient formattedUrl ].

(** The record of calls seen by the [k]-th collaborator call of a
    connection for [formattedUrl] started in world [w] (counting the
    console line as call 0). *)
Definition seen_by (k : nat) (w : world) (formattedUrl : string) : list event :=
  (trace w ++ take k (connection_calls formattedUrl))%list.

End Handler.

(** ** class ADXServer: the tool-call router *)

Module Router.

(** [request.params.arguments]: an object with JSON values, or undefined. *)
Definition arguments : Type := option (list (string * json)).

(** The literal [{ query: args.query, database: args.database,
    clusterUrl: args.clusterUrl }] handed to the handler. *)
Record tool_params : Type := {
  tp_query : option json;
  tp_database : option json;
  tp_clusterUrl : option json
}.

(** The dimensions of a [logger.event(EventType.TOOL_INVOKED, ...)] call.
    [additionalDimensions] is the empty object and adds none. *)
Record tool_invoked : Type := {
  ev_name : string;
  ev_duration : Z;
  ev_status : string;
  ev_args : option string;
  ev_serverName : string;
  ev_version : string
}.

(** The fields of the server the request handler reads. *)
Record ADXServer : Type := {
  serverName : string;
  version : string
}.

(** What the request handler runs on: [process.env], the number of clock
    readings taken so far, the events handed to the logger so far, and its
    local variable [status]. *)
Record state : Type := {
  r_env : gmap string string;
  clock_reads : nat;
  emitted : list tool_invoked;
  status : string
}.

(** The collaborators of the router: the wall clock, the handler object
    (class ADXHandler) and [JSON.stringify] on the arguments. *)
Record collaborators : Type := {
  Date_now : nat -> Z;
  adxHandler_executeQuery : tool_params -> outcome response;
  JSON_stringify_args : list (string * json) -> string
}.

Abbreviation R := (M state).

Definition getenv (name : string) : R (option string) :=
  fun s => (Ok (r_env s !! name), s).

Definition set_status (v : string) : R unit :=
  fun s => (Ok tt, {| r_env := r_env s; clock_reads := clock_reads s;
                      emitted := emitted s; status := v |}).

Definition get_status : R string := fun s => (Ok (status s), s).

Definition logger_event (e : tool_invoked) : R unit :=
  fun s => (Ok tt, {| r_env := r_env s; clock_reads := clock_reads s;
                      emitted := emitted s ++ [e]; status := status s |}).

(** The state in which handleToolCall starts: one clock reading taken,
    [status] initialised. *)
Definition started (s : state) : state :=
  {| r_env := r_env s; clock_reads := S (clock_reads s);
     emitted := emitted s; status := "success" |}.

Section Server.

Context (K : collaborators) (this : ADXServer).

(** [Date.now()] *)
Definition now : R Z :=
  fun s => (Ok (Date_now K (clock_reads s)),
            {| r_env := r_env s; clock_reads := S (clock_reads s);
               emitted := emitted s; status := status s |}).

(** [args.prop], which throws when [args] is undefined. *)
Definition arg (args : arguments) (prop : string) : R (option json) :=
  match args with
  | Some fields => ret (assoc prop fields)
  | None =>
      throw (TypeError ("Cannot read properties of undefined (reading '" +:+ prop +:+ "')"))
  end.

Definition cluster_required_msg : string :=
  "Cluster URL must be provided either in parameters or via KUSTO_DEFAULT_CLUSTER environment variable".
Definition database_required_msg : string :=
  "Database must be provided either in parameters or via KUSTO_DEFAULT_DATABASE environment variable".

(** protected async handleToolCall(name, args) *)
Definition handleToolCall (name : string) (args : arguments) : R response :=
  if String.eqb name "execute_kusto_query" then
    let* q := arg args "query" in
    let* d := arg args "database" in
    let* c := arg args "clusterUrl" in
    let params := {| tp_query := q; tp_database := d; tp_clusterUrl := c |} in
    let* env_cluster := getenv "KUSTO_DEFAULT_CLUSTER" in
    (if negb (truthy_opt (tp_clusterUrl params)) && negb (truthy_str env_cluster)
     then throw (McpError InvalidParams cluster_required_msg) else ret tt) ;;;
    let* env_database := getenv "KUSTO_DEFAULT_DATABASE" in
    (if negb (truthy_opt (tp_database params)) && negb (truthy_str env_database)
     then throw (McpError InvalidParams database_required_msg) else ret tt) ;;;
    lift (adxHandler_executeQuery K params)
  else
    throw (McpError InvalidParams ("Unknown tool name: " +:+ name)).

(** The handler registered for [CallToolRequestSchema] in
    [setupToolHandlers], applied to a request with the given name and
    arguments. *)
Definition callToolRequestHandler (name : string) (args : arguments) : R response :=
  let* startTime := now in
  set_status "success" ;;;
  let* result :=
    try_catch_finally
      (handleToolCall name args)
      (fun error => set_status "failure" ;;; throw error)
      (let* endTime := now in
       let duration := (endTime - startTime)%Z in
       let* status := get_status in
       logger_event
         {| ev_name := name;
            ev_duration := duration;
            ev_status := status;
            ev_args := JSON_stringify_args K <$> args;
            ev_serverName := serverName this;
            ev_version := version this |}) in
  ret result.

End Server.

End Router.

(** ** class ADXServer, the variant with three tools

    The second server of the repository routes [execute_kusto_query],
    [list_tables] and [get_table_schema], reads the defaults from
    ADX_DEFAULT_CLUSTER and ADX_DEFAULT_DATABASE and does no logging. *)

Module Router2.

(** The literals handed to [listTables] and [getTableSchema]. *)
Record list_params : Type := {
  lp_database : option json;
  lp_clusterUrl : option json
}.

Record schema_params : Type := {
  sp_database : option json;
  sp_clusterUrl : option json;
  sp_table : option json
}.

(** [process.env], the clock readings taken so far and the local [status]. *)
Record state : Type := {
  r_env : gmap string string;
  clock_reads : nat;
  status : string
}.

(** The wall clock and the three methods of the handler object. *)
Record collaborators : Type := {
  Date_now : nat -> Z;
  adxHandler_executeQuery : Router.tool_params -> outcome response;
  adxHandler_listTables : list_params -> outcome response;
  adxHandler_getTableSchema : schema_params -> outcome response
}.

Abbreviation R := (M state).

Definition getenv (name : string) : R (option string) :=
  fun s => (Ok (r_env s !! name), s).

Definition set_status (v : string) : R unit :=
  fun s => (Ok tt, {| r_env := r_env s; clock_reads := clock_reads s; status := v |}).

(** [args.prop], which throws when [args] is undefined. *)
Definition arg (args : Router.arguments) (prop : string) : R (option json) :=
  match args with
  | Some fields => ret (assoc prop fields)
  | None =>
      throw (TypeError ("Cannot read properties of undefined (reading '" +:+ prop +:+ "')"))
  end.

Definition cluster_required_msg : string :=
  "Cluster URL must be provided either in parameters or via ADX_DEFAULT_CLUSTER environment variable".
Definition database_required_msg : string :=
  "Database must be provided either in parameters or via ADX_DEFAULT_DATABASE environment variable".

Definition tool_names : list string :=
  ["execute_kusto_query"; "list_tables"; "get_table_schema"].

Section Server.

Context (K : collaborators).

(** [Date.now()] *)
Definition now : R Z :=
  fun s => (Ok (Date_now K (clock_reads s)),
            {| r_env := r_env s; clock_reads := S (clock_reads s); status := status s |}).

(** protected async handleToolCall(name, args) *)
Definition handleToolCall (name : string) (args : Router.arguments) : R response :=
  if String.eqb name "execute_kusto_query" then
    let* q := arg args "query" in
    let* d := arg args "database" in
    let* c := arg args "clusterUrl" in
    let params := {| Router.tp_query := q; Router.tp_database := d;
                     Router.tp_clusterUrl := c |} in
    let* env_cluster := getenv "ADX_DEFAULT_CLUSTER" in
    (if negb (truthy_opt (Router.tp_clusterUrl params)) && negb (truthy_str env_cluster)
     then throw (McpError InvalidParams cluster_required_msg) else ret tt) ;;;
    let* env_database := getenv "ADX_DEFAULT_DATABASE" in
    (if negb (truthy_opt (Router.tp_database params)) && negb (truthy_str env_database)
     then throw (McpError InvalidParams database_required_msg) else ret tt) ;;;
    lift (adxHandler_executeQuery K params)
  else if String.eqb name "list_tables" then
    let* d := arg args "database" in
    let* c := arg args "clusterUrl" in
    let params := {| lp_database := d; lp_clusterUrl := c |} in
    let* env_cluster := getenv "ADX_DEFAULT_CLUSTER" in
    (if negb (truthy_opt (lp_clusterUrl params)) && negb (truthy_str env_cluster)
     then throw (McpError InvalidParams cluster_required_msg) else ret tt) ;;;
    let* env_database := getenv "ADX_DEFAULT_DATABASE" in
    (if negb (truthy_opt (lp_database params)) && negb (truthy_str env_database)
     then throw (McpError InvalidParams database_required_msg) else ret tt) ;;;
    lift (adxHandler_listTables K params)
  else if String.eqb name "get_table_schema" then
    let* d := arg args "database" in
    let* c := arg args "clusterUrl" in
    let* t := arg args "table" in
    let params := {| sp_database := d; sp_clusterUrl := c; sp_table := t |} in
    let* env_cluster := getenv "ADX_DEFAULT_CLUSTER" in
    (if negb (truthy_opt (sp_clusterUrl params)) && negb (truthy_str env_cluster)
     then throw (McpError InvalidParams cluster_required_msg) else ret tt) ;;;
    let* env_database := getenv "ADX_DEFAULT_DATABASE" in
    (if negb (truthy_opt (sp_database params)) && negb (truthy_str env_database)
     then throw (McpError InvalidParams database_required_msg) else ret tt) ;;;
    lift (adxHandler_getTableSchema K params)
  else
    throw (McpError InvalidParams ("Unknown tool name: " +:+ name)).

(** The handler registered for [CallToolRequestSchema]: it times the call
    and keeps a status, and uses neither. *)
Definition callToolRequestHandler (name : string) (args : Router.arguments) : R response :=
  let* startTime := now in
  set_status "success" ;;;
  let* result :=
    try_catch_finally
      (handleToolCall name args)
      (fun error => set_status "failure" ;;; throw error)
      (let* endTime := now in
       let duration := (endTime - startTime)%Z in
       ret tt) in
  ret result.

End Server.

End Router2.

(** ** Start-up of the server: version, [run], the main-module test *)

Module Startup.

(** The two request schemas for which a handler is registered. *)
Inductive schema : Type :=
| ListToolsRequestSchema
| CallToolRequestSchema.

(** What start-up does to the outside, in order. *)
Inductive action : Type :=
| LogInfo (msg : string)
| LogInfoKeys (msg : string) (keys : list string)
| LogWarn (msg : string)
| LogError (label : string) (e : exn)
| ServerStarted (serverName version : string) (toolCount : nat)
| ServerConnected (serverName version : string) (totalStartupTime : Z)
    (transportType : string)
| ServerError (serverName version : string) (error : string) (phase : string)
| HandlerInitialize
| SetRequestHandler (requestSchema : schema)
| NewTransport
| Connect.

Record state : Type := {
  actions : list action;
  clock_reads : nat
}.

Abbreviation Boot := (M state).

Definition act (a : action) : Boot unit :=
  fun s => (Ok tt, {| actions := actions s ++ [a]; clock_reads := clock_reads s |}).

(** A call that may throw; it is recorded either way. *)
Definition attempt {A} (a : action) (o : outcome A) : Boot A :=
  fun s => (o, {| actions := actions s ++ [a]; clock_reads := clock_reads s |}).

(** *** loadPackageVersion *)

(** Module URL, platform, path and file-system functions, the parser, and
    ToString for the version interpolated in a log line. *)
Record files : Type := {
  import_meta_url : string;
  URL_pathname : string -> outcome string;
  process_platform : string;
  path_dirname : string -> string;
  path_resolve : string -> string -> string -> string;
  fs_existsSync : string -> bool;
  fs_readFileSync : string -> outcome string;
  JSON_parse : string -> outcome json;
  ToString : json -> string
}.

(** [s.substring(1)] *)
Definition substring_from_1 (s : string) : string :=
  match s with
  | EmptyString => EmptyString
  | String _ rest => rest
  end.

(** A value of type [any | undefined] interpolated in a template literal. *)
Definition interpolate (F : files) (v : option json) : string :=
  match v with
  | Some j => ToString F j
  | None => "undefined"
  end.

(** [v || undefined] *)
Definition or_undefined (v : option json) : option json :=
  if truthy_opt v then v else None.

(** private loadPackageVersion(). Leaving the inner [try] by [return] and
    falling out of it to [return undefined] are told apart by the value
    alone: [None] is [undefined]. *)
Definition loadPackageVersion (F : files) : Boot (option json) :=
  try_catch
    (try_catch
       (let currentFileUrl := import_meta_url F in
        let* currentPathname := lift (URL_pathname F currentFileUrl) in
        let currentFilePath :=
          if String.eqb (process_platform F) "win32"
          then substring_from_1 currentPathname
          else currentPathname in
        let dirPath := path_dirname F currentFilePath in
        let packageJsonPath := path_resolve F dirPath ".." "package.json" in
        act (LogInfo ("Strategy 1 - Looking for package.json at: " +:+ packageJsonPath)) ;;;
        if fs_existsSync F packageJsonPath then
          let* text := lift (fs_readFileSync F packageJsonPath) in
          let* packageJson := lift (JSON_parse F text) in
          let* version := lift (get_prop packageJson "version") in
          act (LogInfo ("Found package.json with version: " +:+ interpolate F version)) ;;;
          ret (or_undefined version)
        else ret None)
       (fun e =>
          act (LogWarn ("Strategy 1 failed: " +:+ message e)) ;;;
          ret None))
    (fun error =>
       act (LogError "Failed to load package version:" error) ;;;
       ret None).

(** [this.version = this.loadPackageVersion() || "0.1.5"] in the constructor. *)
Definition constructor_version (F : files) : Boot json :=
  let* loaded := loadPackageVersion F in
  ret (if truthy_opt loaded then default (JStr "0.1.5") loaded else JStr "0.1.5").

(** *** run *)

(** The fields of the server that [run] reads; [tools] is the content of
    schemas/adx.json. *)
Record ADXServer : Type := {
  name : string;
  serverName : string;
  version : string;
  tools : list (string * json)
}.

Record collaborators : Type := {
  Date_now : nat -> Z;
  adxHandler_initialize : outcome unit;
  StdioServerTransport_new : outcome unit;
  server_connect : outcome unit
}.

Section Run.

Context (K : collaborators) (this : ADXServer).

(** [Date.now()] *)
Definition now : Boot Z :=
  fun s => (Ok (Date_now K (clock_reads s)),
            {| actions := actions s; clock_reads := Datatypes.S (clock_reads s) |}).

(** protected setupToolHandlers(): registers the two request handlers. *)
Definition setupToolHandlers : Boot unit :=
  act (SetRequestHandler ListToolsRequestSchema) ;;;
  act (LogInfoKeys "Tools registered:" (fst <$> tools this)) ;;;
  act (SetRequestHandler CallToolRequestSchema).

(** protected async initializeHandlers() *)
Definition initializeHandlers : Boot unit :=
  attempt HandlerInitialize (adxHandler_initialize K) ;;;
  setupToolHandlers.

(** public async run() *)
Definition run : Boot unit :=
  act (LogInfo ("Starting " +:+ name this +:+ " server initialization...")) ;;;
  act (ServerStarted (serverName this) (version this) (length (tools this))) ;;;
  let* startTime := now in
  try_catch
    (act (LogInfo "Initializing handlers...") ;;;
     initializeHandlers ;;;
     act (LogInfo "Handlers initialized successfully") ;;;
     act (LogInfo "Creating stdio transport...") ;;;
     attempt NewTransport (StdioServerTransport_new K) ;;;
     act (LogInfo "Connecting to transport...") ;;;
     attempt Connect (server_connect K) ;;;
     let* endTime := now in
     act (ServerConnected (serverName this) (version this)
            (endTime - startTime)%Z "stdio") ;;;
     act (LogInfo (name this +:+ " MCP server running on stdio")))
    (fun error =>
       act (LogError ("Failed to start " +:+ name this +:+ " server:") error) ;;;
       act (ServerError (serverName this) (version this) (message error) "startup") ;;;
       throw error).

End Run.

(** *** What the statements about start-up speak of *)

(** The path at which loadPackageVersion looks for package.json, given the
    path name of the module URL. *)
Definition package_json_path (F : files) (currentPathname : string) : string :=
  path_resolve F
    (path_dirname F
       (if String.eqb (process_platform F) "win32"
        then substring_from_1 currentPathname
        else currentPathname))
    ".." "package.json".

Definition is_ServerStarted (a : action) : bool :=
  match a with ServerStarted _ _ _ => true | _ => false end.

Definition is_ServerConnected (a : action) : bool :=
  match a with ServerConnected _ _ _ _ => true | _ => false end.

Definition is_ServerError (a : action) : bool :=
  match a with ServerError _ _ _ _ => true | _ => false end.

Definition count_actions (p : action -> bool) (l : list action) : nat :=
  length (filter (fun a => p a = true) l).

(** The exception of the first collaborator of [run] that throws, if any:
    the handler's initialize, the transport's constructor, the connection. *)
Definition first_failure (K : collaborators) : option exn :=
  match adxHandler_initialize K with
  | Throw e => Some e
  | Ok _ =>
      match StdioServerTransport_new K with
      | Throw e => Some e
      | Ok _ =>
          match server_connect K with
          | Throw e => Some e
          | Ok _ => None
          end
      end
  end.

(** *** The main-module test *)

(** The code units 92 and 47. *)
Definition backslash : Ascii.ascii := Eval cbv in Ascii.ascii_of_nat 92.
Definition slash : Ascii.ascii := Eval cbv in Ascii.ascii_of_nat 47.

(** [s.replace(/\\/g, '/')] *)
Fixpoint replace_backslashes (s : string) : string :=
  match s with
  | EmptyString => EmptyString
  | String c rest =>
      String (if Ascii.eqb c backslash then slash else c) (replace_backslashes rest)
  end.

(** [s.slice(n)] for [0 <= n] *)
Fixpoint drop_chars (n : nat) (s : string) : string :=
  match n, s with
  | O, _ => s
  | Datatypes.S n', String _ rest => drop_chars n' rest
  | Datatypes.S _, EmptyString => EmptyString
  end.

(** [s.endsWith(suffix)] *)
Definition endsWith (s suffix : string) : bool :=
  (String.length suffix <=? String.length s)%nat
  && String.eqb (drop_chars (String.length s - String.length suffix) s) suffix.

(** [process.argv[1] && import.meta.url.endsWith(process.argv[1].replace(/\\/g, '/'))],
    as a condition. *)
Definition is_main_module (argv1 : option string) (url : string) : bool :=
  truthy_str argv1
  && endsWith url (replace_backslashes (default "" argv1)).

End Startup.

(** ** Sessions *)

(** Successive executeQuery calls on one handler, as the server issues them
    for successive requests. *)
Fixpoint executeQueries (K : collaborators) (requests : list KustoQueryParams)
  : H (list response) :=
  match requests with
  | [] => ret []
  | params :: rest =>
      let* r := executeQuery K params in
      let* rs := executeQueries K rest in
      ret (r :: rs)
  end.

(** ** Running the monad *)

Ltac run :=
  unfold executeQuery, executeQuery_try, executeQuery_catch, prepareResponseObj,
    getClient, initialize, assert_defined, console_log, console_error, call,
    getenv, get_this, set_initialized, set_kustoClient, set_currentClusterUrl,
    try_catch_finally, try_catch, bind, ret, throw, lift, record in *;
  simpl in *.

(** Decides the name tests of handleToolCall on a concrete name. *)
Ltac name_tests :=
  repeat match goal with
    | |- context [String.eqb ?a ?b] =>
        let t := eval vm_compute in (String.eqb a b) in
        change (String.eqb a b) with t
    end;
  cbv beta iota zeta.

Ltac unfold_router2 :=
  unfold Router2.handleToolCall, Router2.arg, Router2.getenv, bind, ret, throw, lift;
  cbv beta iota zeta.

Ltac boot :=
  unfold Startup.constructor_version, Startup.loadPackageVersion, Startup.act,
    try_catch, bind, ret, throw, lift;
  cbv beta iota zeta.

Ltac unfold_run :=
  unfold Startup.run, Startup.initializeHandlers, Startup.setupToolHandlers,
    Startup.now, Startup.act, Startup.attempt, try_catch, bind, ret, throw;
  cbv beta iota zeta.

(** ** Concrete collaborators and worlds used in examples *)

Module Fixtures.

(** The quotation mark, code unit 34. *)
Definition dq : string :=
  String (Ascii.Ascii false true false false false true false false) EmptyString.

(** The text of a primary result with one row. *)
Definition one_row_payload : string :=
  "{" +:+ dq +:+ "data" +:+ dq +:+ ":[{" +:+ dq +:+ "x" +:+ dq +:+ ":1}]}".

Definition one_row : json := JObj [("x", JNum (Qmake 1 1))].

(** [JSON.parse] on the few texts the examples use. *)
Definition parse_table (s : string) : outcome json :=
  if String.eqb s one_row_payload then Ok (JObj [("data", JArr [one_row])])
  else if String.eqb s "null" then Ok JNull
  else if String.eqb s "{}" then Ok (JObj [])
  else Throw (JsError "SyntaxError" "Unexpected token in JSON").

(** A serializer that keeps only what the examples look at. *)
Definition show_envelope (o : responseObj) : string :=
  (if success o then "success " else "failure ") +:+ default "" (error o).

(** A signed-in user and a reachable cluster that answers every query with
    the given primary result. *)
Definition cooperative (payload : string) : collaborators :=
  {| AzureCliCredential_new := fun _ => Ok tt;
     credential_getToken := fun _ _ => Ok tt;
     KustoConnectionStringBuilder_withTokenCredential := fun _ _ => Ok tt;
     KustoClient_new := fun _ _ => Ok tt;
     client_execute := fun _ _ _ _ => Ok {| primaryResults := [payload] |};
     JSON_parse := parse_table;
     JSON_stringify := show_envelope;
     ToString := fun _ => "[object Object]" |}.

Definition sign_in_required : exn :=
  JsError "CredentialUnavailableError" "Please run 'az login' to set up an account".

(** As [cooperative], but no token can be obtained for the cluster [down]. *)
Definition down_cluster : collaborators :=
  {| AzureCliCredential_new := fun _ => Ok tt;
     credential_getToken := fun _ scope =>
       if String.eqb scope "https://down.kusto.windows.net/.default"
       then Throw sign_in_required else Ok tt;
     KustoConnectionStringBuilder_withTokenCredential := fun _ _ => Ok tt;
     KustoClient_new := fun _ _ => Ok tt;
     client_execute := fun _ _ _ _ => Ok {| primaryResults := ["{}"] |};
     JSON_parse := parse_table;
     JSON_stringify := show_envelope;
     ToString := fun _ => "[object Object]" |}.

Definition no_env : world := {| env := ∅; trace := [] |}.

Definition env_foo_bar : world :=
  {| env := {[ "KUSTO_DEFAULT_CLUSTER" := "foo"; "KUSTO_DEFAULT_DATABASE" := "bar" ]};
     trace := [] |}.

(** A handler after [initialize()]. *)
Definition ready : KustoHandler :=
  {| currentClusterUrl := None; kustoClient := None; initialized := true |}.

Definition only_query (q : string) : KustoQueryParams :=
  {| query := q; database := None; clusterUrl := None |}.

(** Two successive [getClient] calls on one handler. *)
Definition getClient_twice (K : collaborators) (u1 u2 : string)
  : H (option client * option client) :=
  let* c1 := getClient K u1 in
  let* c2 := getClient K u2 in
  ret (c1, c2).

Definition router_collaborators : Router.collaborators :=
  {| Router.Date_now := fun n => (1000 + 7 * Z.of_nat n)%Z;
     Router.adxHandler_executeQuery := fun _ =>
       Throw (JsError "Error" "socket hang up");
     Router.JSON_stringify_args := fun _ => "{...}" |}.

Definition adx_server : Router.ADXServer :=
  {| Router.serverName := "adx_server"; Router.version := "0.1.5" |}.

Definition router_start : Router.state :=
  {| Router.r_env := {[ "KUSTO_DEFAULT_CLUSTER" := "foo"; "KUSTO_DEFAULT_DATABASE" := "bar" ]};
     Router.clock_reads := 0;
     Router.emitted := [];
     Router.status := "" |}.

(** A cluster that answers a query with no primary result. *)
Definition empty_answer : collaborators :=
  {| AzureCliCredential_new := fun _ => Ok tt;
     credential_getToken := fun _ _ => Ok tt;
     KustoConnectionStringBuilder_withTokenCredential := fun _ _ => Ok tt;
     KustoClient_new := fun _ _ => Ok tt;
     client_execute := fun _ _ _ _ => Ok {| primaryResults := [] |};
     JSON_parse := parse_table;
     JSON_stringify := show_envelope;
     ToString := fun _ => "[object Object]" |}.

(** A cluster whose primary result parses to an object with [data: null]. *)
Definition null_data : collaborators :=
  {| AzureCliCredential_new := fun _ => Ok tt;
     credential_getToken := fun _ _ => Ok tt;
     KustoConnectionStringBuilder_withTokenCredential := fun _ _ => Ok tt;
     KustoClient_new := fun _ _ => Ok tt;
     client_execute := fun _ _ _ _ => Ok {| primaryResults := ["payload"] |};
     JSON_parse := fun _ => Ok (JObj [("name", JStr "PrimaryResult"); ("data", JNull)]);
     JSON_stringify := show_envelope;
     ToString := fun _ => "[object Object]" |}.

Definition both_given : KustoQueryParams :=
  {| query := "T | take 1"; database := Some "bar"; clusterUrl := Some "foo" |}.

Definition router2_collaborators : Router2.collaborators :=
  {| Router2.Date_now := fun n => (1000 + 7 * Z.of_nat n)%Z;
     Router2.adxHandler_executeQuery := fun _ =>
       Ok {| content := text_content "rows"; isError := None |};
     Router2.adxHandler_listTables := fun _ =>
       Ok {| content := text_content "tables"; isError := None |};
     Router2.adxHandler_getTableSchema := fun _ =>
       Throw (JsError "Error" "socket hang up") |}.

Definition router2_start : Router2.state :=
  {| Router2.r_env := {[ "ADX_DEFAULT_CLUSTER" := "foo" ]};
     Router2.clock_reads := 0;
     Router2.status := "" |}.

Definition router2_no_env : Router2.state :=
  {| Router2.r_env := ∅; Router2.clock_reads := 0; Router2.status := "" |}.

(** A package.json with version 1.2.3 next to the build directory. *)
Definition package_files : Startup.files :=
  {| Startup.import_meta_url := "file:///srv/adx/build/index.js";
     Startup.URL_pathname := fun _ => Ok "/srv/adx/build/index.js";
     Startup.process_platform := "linux";
     Startup.path_dirname := fun _ => "/srv/adx/build";
     Startup.path_resolve := fun _ _ _ => "/srv/adx/package.json";
     Startup.fs_existsSync := fun path => String.eqb path "/srv/adx/package.json";
     Startup.fs_readFileSync := fun _ => Ok "package.json text";
     Startup.JSON_parse := fun _ =>
       Ok (JObj [("name", JStr "adx"); ("version", JStr "1.2.3")]);
     Startup.ToString := fun j => match j with JStr t => t | _ => "?" end |}.

(** The same place, but the file cannot be read. *)
Definition unreadable_files : Startup.files :=
  {| Startup.import_meta_url := "file:///srv/adx/build/index.js";
     Startup.URL_pathname := fun _ => Ok "/srv/adx/build/index.js";
     Startup.process_platform := "linux";
     Startup.path_dirname := fun _ => "/srv/adx/build";
     Startup.path_resolve := fun _ _ _ => "/srv/adx/package.json";
     Startup.fs_existsSync := fun path => String.eqb path "/srv/adx/package.json";
     Startup.fs_readFileSync := fun _ =>
       Throw (JsError "Error" "EACCES: permission denied");
     Startup.JSON_parse := fun _ => Ok (JObj []);
     Startup.ToString := fun _ => "?" |}.

Definition boot_start : Startup.state :=
  {| Startup.actions := []; Startup.clock_reads := 0 |}.

(** Everything starts, but the transport cannot be connected. *)
Definition no_connection : Startup.collaborators :=
  {| Startup.Date_now := fun n => (1000 + 7 * Z.of_nat n)%Z;
     Startup.adxHandler_initialize := Ok tt;
     Startup.StdioServerTransport_new := Ok tt;
     Startup.server_connect := Throw (JsError "Error" "stdin closed") |}.

Definition adx : Startup.ADXServer :=
  {| Startup.name := "ADX";
     Startup.serverName := "adx_server";
     Startup.version := "0.1.5";
     Startup.tools := [("execute_kusto_query", JObj [])] |}.

End Fixtures.

(** * Properties *)

(** ** Strings *)

Lemma prefix_refl (s : string) : String.prefix s s = true.
Proof.
  induction s as [|a s IH]; simpl; [reflexivity|].
  destruct (Ascii.ascii_dec a a); [exact IH | congruence].
Qed.

Lemma includes_refl (s : string) : includes s s = true.
Proof.
  destruct s as [|a s]; [reflexivity|].
  change (String.prefix (String a s) (String a s) || includes (String a s) s = true).
  rewrite prefix_refl. reflexivity.
Qed.

Lemma includes_empty (s : string) : includes "" s = true.
Proof. destruct s; reflexivity. Qed.

(** The text chosen by [error || default] contains the error's message. *)
Lemma includes_js_or_else (m : string) :
  includes m (js_or_else (Some m) default_error) = true.
Proof.
  unfold js_or_else; simpl.
  destruct (String.eqb_spec m "") as [->|_]; simpl.
  - reflexivity.
  - apply includes_refl.
Qed.

(** ** The handler *)

Section HandlerFacts.

Context (K : collaborators).

Lemma executeQuery_catch_run params e h w :
  executeQuery_catch K params e (h, w) = (Ok (failure_response K params w e), (h, w)).
Proof. reflexivity. Qed.

Lemma executeQuery_of_try params s :
  executeQuery K params s =
  match executeQuery_try K params s with
  | (Ok r, s') => (Ok r, s')
  | (Throw e, (h', w')) => (Ok (failure_response K params w' e), (h', w'))
  end.
Proof.
  unfold executeQuery, try_catch.
  destruct (executeQuery_try K params s) as [[r|e] [h' w']]; reflexivity.
Qed.


Lemma rows_of_truthy (o : option json) : truthy (rows_of o) = true.
Proof.
  unfold rows_of. destruct o as [v|]; simpl; [|reflexivity].
  destruct (truthy v) eqn:E; simpl; [exact E | reflexivity].
Qed.

(** getClient never touches [process.env]. *)
Lemma getClient_env c h w r h' w' :
  getClient K c (h, w) = (r, (h', w')) -> env w' = env w.
Proof.
  run. destruct (must_reinitialize h (formatClusterUrl c)); simpl.
  - destruct (AzureCliCredential_new K _); simpl;
      [destruct (credential_getToken K _ _); simpl;
       [destruct (KustoConnectionStringBuilder_withTokenCredential K _ _); simpl;
        [destruct (KustoClient_new K _ _); simpl|]|]|];
      intros [= <- <- <-]; reflexivity.
  - intros [= <- <- <-]; reflexivity.
Qed.

(** Every normal completion of the [try] block is a success envelope built
    from a truthy row value; the environment it echoes is the caller's. *)
Lemma executeQuery_try_ok params h w r s' :
  executeQuery_try K params (h, w) = (Ok r, s') ->
  exists d, truthy d = true /\ r = success_response K params w d.
Proof.
  unfold executeQuery_try.
  unfold bind, get_this, getenv, assert_defined, throw, ret, lift, console_log,
    call, prepareResponseObj; simpl.
  destruct (initialized h); simpl; [|discriminate].
  destruct (negb (truthy_str (clusterUrl params)) && _); simpl; [discriminate|].
  destruct (negb (truthy_str (database params)) && _); simpl; [discriminate|].
  destruct (js_or (clusterUrl params) _) as [c|]; simpl; [|discriminate].
  destruct (js_or (database params) _) as [d|]; simpl; [|discriminate].
  destruct (getClient K c (h, w)) as [[[cl|]|e] [h1 w1]] eqn:G; simpl; try discriminate.
  apply getClient_env in G.
  destruct (client_execute K _ _ _ _) as [results|e]; simpl; [|discriminate].
  destruct (primaryResults results) as [|rawString rest]; simpl; [discriminate|].
  destruct (JSON_parse K rawString) as [rawData|e]; simpl; [|discriminate].
  destruct (get_prop rawData "data") as [rawData_data|e]; simpl; [|discriminate].
  rewrite rows_of_truthy; simpl. rewrite G.
  intros [= <- <-]. exists (rows_of rawData_data).
  split; [apply rows_of_truthy | reflexivity].
Qed.

(** *** The connection cache *)

Lemma must_reinitialize_false this u :
  must_reinitialize this u = false <->
  exists cl, kustoClient this = Some cl /\ currentClusterUrl this = Some u.
Proof.
  unfold must_reinitialize. split.
  - intros Hm. apply orb_false_elim in Hm as [H1 H2].
    apply negb_false_iff, bool_decide_eq_true in H1 as [cl Hcl].
    apply negb_false_iff, bool_decide_eq_true in H2. eauto.
  - intros (cl & Hcl & Hu).
    rewrite !bool_decide_eq_true_2; eauto.
Qed.

(** A hit: the cached client is returned and nothing at all happens. *)
Lemma getClient_cached c h w cl :
  kustoClient h = Some cl ->
  currentClusterUrl h = Some (formatClusterUrl c) ->
  getClient K c (h, w) = (Ok (Some cl), (h, w)).
Proof.
  intros Hcl Hu.
  assert (Hm : must_reinitialize h (formatClusterUrl c) = false)
    by (apply must_reinitialize_false; eauto).
  run. rewrite Hm; simpl. rewrite Hcl. reflexivity.
Qed.

(** A normal return leaves the returned client cached under the formatted
    URL; the calls made are none (hit) or those of one connection (miss). *)
Lemma getClient_ok c h w r h1 w1 :
  getClient K c (h, w) = (Ok r, (h1, w1)) ->
  exists cl,
    r = Some cl
    /\ kustoClient h1 = Some cl
    /\ currentClusterUrl h1 = Some (formatClusterUrl c)
    /\ initialized h1 = initialized h
    /\ ((h1 = h /\ w1 = w)
        \/ (client_url cl = formatClusterUrl c
            /\ trace w1 = (trace w ++ connection_calls (formatClusterUrl c))%list)).
Proof.
  destruct (must_reinitialize h (formatClusterUrl c)) eqn:Hm.
  - run. rewrite Hm; simpl.
    destruct (AzureCliCredential_new K _); simpl; [|discriminate].
    destruct (credential_getToken K _ _); simpl; [|discriminate].
    destruct (KustoConnectionStringBuilder_withTokenCredential K _ _); simpl; [|discriminate].
    destruct (KustoClient_new K _ _); simpl; [|discriminate].
    intros [= <- <- <-]. eexists; repeat split.
    right. split; [reflexivity|]. simpl.
    rewrite <- !app_assoc. reflexivity.
  - apply must_reinitialize_false in Hm as (cl & Hcl & Hu).
    rewrite (getClient_cached c h w cl Hcl Hu).
    intros [= <- <- <-]. exists cl. repeat split; auto.
Qed.

(** A throw leaves the three fields as they were. *)
Lemma getClient_throw c h w e h1 w1 :
  getClient K c (h, w) = (Throw e, (h1, w1)) -> h1 = h /\ env w1 = env w.
Proof.
  destruct (must_reinitialize h (formatClusterUrl c)) eqn:Hm.
  - run. rewrite Hm; simpl.
    destruct (AzureCliCredential_new K _); simpl;
      [destruct (credential_getToken K _ _); simpl;
       [destruct (KustoConnectionStringBuilder_withTokenCredential K _ _); simpl;
        [destruct (KustoClient_new K _ _); simpl|]|]|];
      intros [= <- <- <-]; split; reflexivity.
  - apply must_reinitialize_false in Hm as (cl & Hcl & Hu).
    rewrite (getClient_cached c h w cl Hcl Hu). discriminate.
Qed.

(** Inputs with the same formatted URL share one client: after a successful
    call, a call for any of them is a hit. *)
Lemma getClient_reuse c1 c2 s r s1 :
  getClient K c1 s = (Ok r, s1) ->
  formatClusterUrl c2 = formatClusterUrl c1 ->
  getClient K c2 s1 = (Ok r, s1).
Proof.
  destruct s as [h w], s1 as [h1 w1]. intros G E.
  apply getClient_ok in G as (cl & -> & Hcl & Hu & _).
  apply getClient_cached; [exact Hcl | rewrite E; exact Hu].
Qed.

(** A short name and the URL it abbreviates have the same formatted URL. *)
Lemma formatClusterUrl_short_name name :
  String.prefix "https://" name = false ->
  formatClusterUrl ("https://" +:+ name +:+ ".kusto.windows.net") = formatClusterUrl name.
Proof.
  intros Hp. unfold formatClusterUrl at 2. rewrite Hp.
  unfold formatClusterUrl. simpl.
  repeat (match goal with |- context [Ascii.ascii_dec ?a ?b] =>
            destruct (Ascii.ascii_dec a b); [|congruence] end).
  destruct (name +:+ ".kusto.windows.net"); reflexivity.
Qed.

Lemma getClient_consistent c h w r h1 w1 :
  cache_consistent h ->
  getClient K c (h, w) = (Ok r, (h1, w1)) ->
  cache_consistent h1
  /\ exists cl, r = Some cl /\ client_url cl = formatClusterUrl c.
Proof.
  intros Hc G.
  apply getClient_ok in G as (cl & -> & Hcl & Hu & _ & [[-> ->]|[Hurl _]]).
  - split; [exact Hc|]. exists cl. split; [reflexivity|].
    specialize (Hc cl Hcl). congruence.
  - split.
    + intros cl' Hcl'. rewrite Hcl in Hcl'. injection Hcl' as <-. congruence.
    + eauto.
Qed.

(** C9. When getClient has to connect and credential acquisition throws,
    or credential acquisition succeeds and client construction throws, the
    same exception leaves getClient and the handler's fields are what they
    were before the call; a later call for the identity cached before is
    still a hit on the client cached before. *)
Theorem getClient_failure_keeps_cache c h w e :
  must_reinitialize h (formatClusterUrl c) = true ->
  AzureCliCredential_new K (seen_by 1 w (formatClusterUrl c)) = Ok tt ->
  credential_getToken K (seen_by 2 w (formatClusterUrl c))
      (formatClusterUrl c +:+ "/.default") = Throw e
  \/ (credential_getToken K (seen_by 2 w (formatClusterUrl c))
        (formatClusterUrl c +:+ "/.default") = Ok tt
      /\ KustoConnectionStringBuilder_withTokenCredential K
           (seen_by 3 w (formatClusterUrl c)) (formatClusterUrl c) = Ok tt
      /\ KustoClient_new K (seen_by 4 w (formatClusterUrl c)) (formatClusterUrl c)
         = Throw e) ->
  exists w',
    getClient K c (h, w) = (Throw e, (h, w'))
    /\ forall prior cl,
         kustoClient h = Some cl ->
         currentClusterUrl h = Some (formatClusterUrl prior) ->
         getClient K prior (h, w') = (Ok (Some cl), (h, w')).
Proof.
  intros Hm Hcred Hfail.
  assert (exists w', getClient K c (h, w) = (Throw e, (h, w'))) as [w' G].
  { unfold seen_by, connection_calls in *. simpl in Hcred, Hfail.
    run. rewrite Hm; simpl.
    rewrite <- ?app_assoc; simpl. rewrite Hcred; simpl.
    rewrite <- ?app_assoc; simpl.
    destruct Hfail as [Htok | (Htok & Hb & Hnew)]; rewrite Htok; simpl.
    - eauto.
    - rewrite <- ?app_assoc; simpl. rewrite Hb; simpl.
      rewrite <- ?app_assoc; simpl. rewrite Hnew; simpl. eauto. }
  exists w'. split; [exact G|].
  intros prior cl Hcl Hu. apply getClient_cached; assumption.
Qed.

(** *** Failures become envelopes *)

(** C2. On a handler on which initialize() has not run, executeQuery returns
    (it does not throw) a response with [isError] set whose envelope has
    [success] false and an error text containing "not initialized". The
    handler's fields and the world are left exactly as they were: no client
    is constructed and no collaborator is called. *)
Theorem executeQuery_before_initialize params h w :
  initialized h = false ->
  exists obj txt,
    executeQuery K params (h, w)
      = (Ok {| content := text_content (JSON_stringify K obj); isError := Some true |},
         (h, w))
    /\ success obj = false
    /\ error obj = Some txt
    /\ includes "not initialized" txt = true.
Proof.
  intros Hinit.
  exists (failure_envelope params w (Error not_initialized_msg)), not_initialized_msg.
  split; [|repeat split].
  rewrite executeQuery_of_try.
  unfold executeQuery_try, bind, get_this, throw; simpl.
  rewrite Hinit; reflexivity.
Qed.

(** C3. executeQuery always returns a response. When its [try] block
    completes normally the response is that block's; when the block throws,
    for whatever reason, the response has [isError] set and carries an
    envelope with [success] false whose error text contains the message of
    the exception. *)
Theorem executeQuery_never_throws params s :
  exists r s',
    executeQuery K params s = (Ok r, s')
    /\ match executeQuery_try K params s with
       | (Ok r0, s0) => r = r0 /\ s' = s0 /\ isError r = None
       | (Throw e, s0) =>
           s' = s0 /\ isError r = Some true
           /\ exists obj txt,
                content r = text_content (JSON_stringify K obj)
                /\ success obj = false
                /\ error obj = Some txt
                /\ includes (message e) txt = true
       end.
Proof.
  rewrite executeQuery_of_try. destruct s as [h w].
  destruct (executeQuery_try K params (h, w)) as [[r0|e] [h' w']] eqn:T.
  - exists r0, (h', w'). repeat split.
    apply executeQuery_try_ok in T as (d & _ & ->). reflexivity.
  - exists (failure_response K params w' e), (h', w'). repeat split.
    exists (failure_envelope params w' e), (js_or_else (Some (message e)) default_error).
    repeat split. apply includes_js_or_else.
Qed.

(** The two guards of executeQuery, as tests on the parameters and the
    environment. *)
Lemma guards_resolve (a b : option string) :
  negb (truthy_str a) && negb (truthy_str b) = false ->
  exists s, js_or a b = Some s /\ s <> "".
Proof.
  unfold js_or. destruct a as [x|], b as [y|]; simpl;
    try destruct (String.eqb_spec x ""); try destruct (String.eqb_spec y "");
    simpl; intros; try discriminate; eauto.
Qed.

(** C4, as the code has it. On an initialized handler: when the cluster
    identity is missing (no truthy parameter, no truthy environment
    default) the envelope reports the cluster-URL requirement; when the
    cluster identity resolves and the database is missing, the envelope
    reports the database requirement. In both cases the handler and the
    world are untouched, so the failure precedes any client construction. *)
Theorem executeQuery_missing_parameters params h w :
  initialized h = true ->
  (truthy_str (clusterUrl params) = false ->
   truthy_str (env w !! "KUSTO_DEFAULT_CLUSTER") = false ->
   executeQuery K params (h, w)
     = (Ok (failure_response K params w (Error cluster_required_msg)), (h, w))
   /\ error (failure_envelope params w (Error cluster_required_msg))
        = Some cluster_required_msg
   /\ includes "Cluster URL must be provided" cluster_required_msg = true)
  /\
  (negb (truthy_str (clusterUrl params))
     && negb (truthy_str (env w !! "KUSTO_DEFAULT_CLUSTER")) = false ->
   truthy_str (database params) = false ->
   truthy_str (env w !! "KUSTO_DEFAULT_DATABASE") = false ->
   executeQuery K params (h, w)
     = (Ok (failure_response K params w (Error database_required_msg)), (h, w))
   /\ error (failure_envelope params w (Error database_required_msg))
        = Some database_required_msg
   /\ includes "Database must be provided" database_required_msg = true).
Proof.
  intros Hinit. split.
  - intros Hp He. split; [|split; reflexivity].
    rewrite executeQuery_of_try.
    unfold executeQuery_try, bind, get_this, getenv, throw, ret.
    cbv beta iota zeta delta [fst]. rewrite Hinit.
    cbv beta iota zeta delta [negb]. rewrite Hp, He. reflexivity.
  - intros Hc Hp He. split; [|split; reflexivity].
    rewrite executeQuery_of_try.
    unfold executeQuery_try, bind, get_this, getenv, throw, ret.
    cbv beta iota zeta delta [fst]. rewrite Hinit.
    change (negb true) with false. cbv beta iota zeta. rewrite Hc.
    cbv beta iota zeta. rewrite Hp, He. reflexivity.
Qed.

Lemma resolved_guard (a b : option string) (s : string) :
  js_or a b = Some s -> s <> "" ->
  negb (truthy_str a) && negb (truthy_str b) = false.
Proof.
  unfold js_or. destruct a as [x|], b as [y|]; simpl;
    try destruct (String.eqb_spec x ""); try destruct (String.eqb_spec y "");
    simpl; intros; simplify_eq; try reflexivity; congruence.
Qed.

(** The path through executeQuery on which every step succeeds. *)
Lemma executeQuery_success params h w c d cl h1 w1 results payload rest rawData rawData_data :
  initialized h = true ->
  js_or (clusterUrl params) (env w !! "KUSTO_DEFAULT_CLUSTER") = Some c -> c <> "" ->
  js_or (database params) (env w !! "KUSTO_DEFAULT_DATABASE") = Some d -> d <> "" ->
  getClient K c (h, w) = (Ok (Some cl), (h1, w1)) ->
  client_execute K (trace w1) cl d (query params) = Ok results ->
  primaryResults results = payload :: rest ->
  JSON_parse K payload = Ok rawData ->
  get_prop rawData "data" = Ok rawData_data ->
  executeQuery K params (h, w)
    = (Ok (success_response K params w (rows_of rawData_data)),
       (h1, record (ConsoleLog ["Response:";
                                JSON_stringify K (success_envelope K params w (rows_of rawData_data))])
              (record (Execute cl d (query params)) w1))).
Proof.
  intros Hinit Hc Hc' Hd Hd' G Hx Hp Hj Hg.
  pose proof (resolved_guard _ _ _ Hc Hc') as Gc.
  pose proof (resolved_guard _ _ _ Hd Hd') as Gd.
  pose proof (getClient_env _ _ _ _ _ _ G) as He.
  rewrite executeQuery_of_try.
  unfold executeQuery_try, bind, get_this, getenv, assert_defined, throw, ret,
    lift, console_log, call, prepareResponseObj.
  cbv beta iota zeta delta [fst]. rewrite Hinit.
  change (negb true) with false. cbv beta iota zeta.
  rewrite Gc. cbv beta iota zeta. rewrite Gd. cbv beta iota zeta.
  rewrite Hc, Hd. cbv beta iota zeta. rewrite G. cbv beta iota zeta.
  rewrite Hx. cbv beta iota zeta. rewrite Hp. cbv beta iota zeta.
  rewrite Hj. cbv beta iota zeta. rewrite Hg. cbv beta iota zeta.
  rewrite rows_of_truthy. simpl. rewrite He. reflexivity.
Qed.

(** The failures of the collaborators, one by one: a connection that
    cannot be made (no credential, no token, no client), a query that the
    cluster rejects, and a primary result that is not JSON all end in the
    failure envelope built from the exception they raised. *)
Lemma executeQuery_connection_failure params h w c d e h1 w1 :
  initialized h = true ->
  js_or (clusterUrl params) (env w !! "KUSTO_DEFAULT_CLUSTER") = Some c -> c <> "" ->
  js_or (database params) (env w !! "KUSTO_DEFAULT_DATABASE") = Some d -> d <> "" ->
  getClient K c (h, w) = (Throw e, (h1, w1)) ->
  executeQuery K params (h, w) = (Ok (failure_response K params w e), (h, w1)).
Proof.
  intros Hinit Hc Hc' Hd Hd' G.
  pose proof (resolved_guard _ _ _ Hc Hc') as Gc.
  pose proof (resolved_guard _ _ _ Hd Hd') as Gd.
  pose proof (getClient_throw _ _ _ _ _ _ G) as [-> He].
  rewrite executeQuery_of_try.
  unfold executeQuery_try, bind, get_this, getenv, assert_defined, throw, ret.
  cbv beta iota zeta delta [fst]. rewrite Hinit.
  change (negb true) with false. cbv beta iota zeta.
  rewrite Gc. cbv beta iota zeta. rewrite Gd. cbv beta iota zeta.
  rewrite Hc, Hd. cbv beta iota zeta. rewrite G.
  unfold failure_response, failure_envelope. rewrite He. reflexivity.
Qed.

Lemma executeQuery_execution_failure params h w c d cl h1 w1 e :
  initialized h = true ->
  js_or (clusterUrl params) (env w !! "KUSTO_DEFAULT_CLUSTER") = Some c -> c <> "" ->
  js_or (database params) (env w !! "KUSTO_DEFAULT_DATABASE") = Some d -> d <> "" ->
  getClient K c (h, w) = (Ok (Some cl), (h1, w1)) ->
  client_execute K (trace w1) cl d (query params) = Throw e ->
  executeQuery K params (h, w)
    = (Ok (failure_response K params w e),
       (h1, record (Execute cl d (query params)) w1)).
Proof.
  intros Hinit Hc Hc' Hd Hd' G Hx.
  pose proof (resolved_guard _ _ _ Hc Hc') as Gc.
  pose proof (resolved_guard _ _ _ Hd Hd') as Gd.
  pose proof (getClient_env _ _ _ _ _ _ G) as He.
  rewrite executeQuery_of_try.
  unfold executeQuery_try, bind, get_this, getenv, assert_defined, throw, ret, call.
  cbv beta iota zeta delta [fst]. rewrite Hinit.
  change (negb true) with false. cbv beta iota zeta.
  rewrite Gc. cbv beta iota zeta. rewrite Gd. cbv beta iota zeta.
  rewrite Hc, Hd. cbv beta iota zeta. rewrite G. cbv beta iota zeta.
  rewrite Hx. unfold failure_response, failure_envelope, record; simpl.
  rewrite He. reflexivity.
Qed.

Lemma executeQuery_parse_failure params h w c d cl h1 w1 results payload rest e :
  initialized h = true ->
  js_or (clusterUrl params) (env w !! "KUSTO_DEFAULT_CLUSTER") = Some c -> c <> "" ->
  js_or (database params) (env w !! "KUSTO_DEFAULT_DATABASE") = Some d -> d <> "" ->
  getClient K c (h, w) = (Ok (Some cl), (h1, w1)) ->
  client_execute K (trace w1) cl d (query params) = Ok results ->
  primaryResults results = payload :: rest ->
  JSON_parse K payload = Throw e ->
  executeQuery K params (h, w)
    = (Ok (failure_response K params w e),
       (h1, record (Execute cl d (query params)) w1)).
Proof.
  intros Hinit Hc Hc' Hd Hd' G Hx Hp Hj.
  pose proof (resolved_guard _ _ _ Hc Hc') as Gc.
  pose proof (resolved_guard _ _ _ Hd Hd') as Gd.
  pose proof (getClient_env _ _ _ _ _ _ G) as He.
  rewrite executeQuery_of_try.
  unfold executeQuery_try, bind, get_this, getenv, assert_defined, throw, ret,
    lift, call.
  cbv beta iota zeta delta [fst]. rewrite Hinit.
  change (negb true) with false. cbv beta iota zeta.
  rewrite Gc. cbv beta iota zeta. rewrite Gd. cbv beta iota zeta.
  rewrite Hc, Hd. cbv beta iota zeta. rewrite G. cbv beta iota zeta.
  rewrite Hx. cbv beta iota zeta. rewrite Hp. cbv beta iota zeta. rewrite Hj.
  unfold failure_response, failure_envelope, record; simpl.
  rewrite He. reflexivity.
Qed.

(** C5. With the environment defaults cluster [foo] and database [bar], an
    initialized handler given only a query connects to
    https://foo.kusto.windows.net (the client it uses is bound to that URL,
    and if it had to connect, the token and the client were requested for
    it), executes the query on database [bar], and, the payload parsing to an
    object with rows under [data], answers without the error flag with an
    envelope that has [success] true and those rows as [data]. *)
Theorem executeQuery_environment_defaults q h w cl h1 w1 results payload rest rawData rows :
  initialized h = true ->
  cache_consistent h ->
  env w !! "KUSTO_DEFAULT_CLUSTER" = Some "foo" ->
  env w !! "KUSTO_DEFAULT_DATABASE" = Some "bar" ->
  getClient K "foo" (h, w) = (Ok (Some cl), (h1, w1)) ->
  client_execute K (trace w1) cl "bar" q = Ok results ->
  primaryResults results = payload :: rest ->
  JSON_parse K payload = Ok rawData ->
  get_prop rawData "data" = Ok (Some rows) ->
  truthy rows = true ->
  client_url cl = "https://foo.kusto.windows.net"
  /\ (trace w1 = trace w
      \/ trace w1 = (trace w ++ connection_calls "https://foo.kusto.windows.net")%list)
  /\ exists obj w',
       executeQuery K {| query := q; database := None; clusterUrl := None |} (h, w)
         = (Ok {| content := text_content (JSON_stringify K obj); isError := None |},
            (h1, w'))
       /\ trace w' = (trace w1 ++ [Execute cl "bar" q;
                                   ConsoleLog ["Response:"; JSON_stringify K obj]])%list
       /\ obj = {| success := true;
                   input := {| in_clusterUrl := "https://foo.kusto.windows.net";
                               in_database := "bar";
                               in_query := q |};
                   data := Some rows;
                   r_message := Some ("Query executed successfully. Retrieved "
                                      +:+ length_text K rows +:+ " rows.");
                   error := None |}.
Proof.
  intros Hinit Hc Hec Hed G Hx Hp Hj Hg Ht.
  pose proof (getClient_consistent _ _ _ _ _ _ Hc G) as (_ & cl' & [= <-] & Hurl).
  split; [exact Hurl|]. split.
  { apply getClient_ok in G as (? & _ & _ & _ & _ & [[_ ->]|[_ ->]]); auto. }
  pose proof (executeQuery_success
                {| query := q; database := None; clusterUrl := None |}
                h w "foo" "bar" cl h1 w1 results payload rest rawData (Some rows)) as E.
  simpl in E. rewrite Hec, Hed in E.
  specialize (E Hinit eq_refl ltac:(discriminate) eq_refl ltac:(discriminate) G Hx Hp Hj Hg).
  assert (Hr : rows_of (Some rows) = rows) by (unfold rows_of; simpl; rewrite Ht; reflexivity).
  rewrite Hr in E.
  eexists _, _. split; [exact E|]. split.
  - simpl. rewrite <- app_assoc. reflexivity.
  - unfold success_envelope; simpl. rewrite Hec, Hed. reflexivity.
Qed.

(** C10, as the code has it. When the primary result parses to a JSON value
    other than [null] that has no [data] member, executeQuery answers
    without the error flag, with an envelope that has [success] true, an
    empty data list and the message that 0 rows were retrieved. *)
Theorem executeQuery_no_data_field params h w c d cl h1 w1 results payload rest rawData :
  initialized h = true ->
  js_or (clusterUrl params) (env w !! "KUSTO_DEFAULT_CLUSTER") = Some c -> c <> "" ->
  js_or (database params) (env w !! "KUSTO_DEFAULT_DATABASE") = Some d -> d <> "" ->
  getClient K c (h, w) = (Ok (Some cl), (h1, w1)) ->
  client_execute K (trace w1) cl d (query params) = Ok results ->
  primaryResults results = payload :: rest ->
  JSON_parse K payload = Ok rawData ->
  rawData <> JNull ->
  lacks_data_field rawData ->
  exists obj s',
    executeQuery K params (h, w)
      = (Ok {| content := text_content (JSON_stringify K obj); isError := None |}, s')
    /\ success obj = true
    /\ data obj = Some (JArr [])
    /\ r_message obj = Some "Query executed successfully. Retrieved 0 rows.".
Proof.
  intros Hinit Hc Hc' Hd Hd' G Hx Hp Hj Hn Hl.
  assert (Hg : get_prop rawData "data" = Ok None).
  { destruct rawData; simpl in *; try reflexivity; [congruence | rewrite Hl; reflexivity]. }
  pose proof (executeQuery_success params h w c d cl h1 w1 results payload rest
                rawData None Hinit Hc Hc' Hd Hd' G Hx Hp Hj Hg) as E.
  eexists _, _. split; [exact E|]. repeat split.
Qed.

(** C6. Whenever executeQuery answers without the error flag, the envelope
    is a success envelope whose message states [data.length] of its data
    field; when that field is a list of rows, the stated count is the
    length of the list. *)
Theorem executeQuery_row_count params s r s' :
  executeQuery K params s = (Ok r, s') ->
  isError r = None ->
  exists obj d,
    content r = text_content (JSON_stringify K obj)
    /\ success obj = true
    /\ data obj = Some d
    /\ r_message obj
         = Some ("Query executed successfully. Retrieved " +:+ length_text K d +:+ " rows.")
    /\ forall rows, d = JArr rows ->
         r_message obj
           = Some ("Query executed successfully. Retrieved "
                   +:+ pretty (length rows) +:+ " rows.").
Proof.
  rewrite executeQuery_of_try. destruct s as [h w].
  destruct (executeQuery_try K params (h, w)) as [[r0|e] [h' w']] eqn:T.
  - intros [= <- <-] _.
    apply executeQuery_try_ok in T as (d & _ & ->).
    exists (success_envelope K params w d), d.
    repeat split. intros rows ->. reflexivity.
  - intros [= <- <-]. discriminate.
Qed.

(** *** Reachable handlers *)

Lemma new_KustoHandler_consistent : cache_consistent new_KustoHandler.
Proof. intros cl; discriminate. Qed.

(** initialize() sets the flag, logs one line and touches nothing else. *)
Lemma initialize_run h w :
  initialize (h, w)
  = (Ok tt,
     ({| currentClusterUrl := currentClusterUrl h;
         kustoClient := kustoClient h;
         initialized := true |},
      record (ConsoleLog ["KustoHandler initialized successfully"]) w)).
Proof. reflexivity. Qed.

(** After a successful call, a call whose formatted URL differs from the
    cached one is a miss. *)
Lemma getClient_miss_after c1 c2 h w r h1 w1 :
  getClient K c1 (h, w) = (Ok r, (h1, w1)) ->
  formatClusterUrl c2 <> formatClusterUrl c1 ->
  must_reinitialize h1 (formatClusterUrl c2) = true.
Proof.
  intros G Hne.
  apply getClient_ok in G as (cl & _ & _ & Hu & _).
  destruct (must_reinitialize h1 (formatClusterUrl c2)) eqn:Hm; [reflexivity|].
  apply must_reinitialize_false in Hm as (cl' & _ & Hu').
  congruence.
Qed.

(** executeQuery changes the handler only through getClient: the cache
    stays consistent and the flag is kept. *)
Lemma executeQuery_handler params h w r h' w' :
  cache_consistent h ->
  executeQuery K params (h, w) = (r, (h', w')) ->
  cache_consistent h' /\ initialized h' = initialized h.
Proof.
  intros Hc. rewrite executeQuery_of_try.
  assert (Hgoal : forall o,
            executeQuery_try K params (h, w) = (o, (h', w')) ->
            cache_consistent h' /\ initialized h' = initialized h).
  { intros o.
    unfold executeQuery_try.
    unfold bind, get_this, getenv, assert_defined, throw, ret, lift, console_log,
      call, prepareResponseObj; simpl.
    destruct (initialized h) eqn:Hi; simpl; [|intros [= <- <- <-]; auto].
    destruct (negb (truthy_str (clusterUrl params)) && _); simpl;
      [intros [= <- <- <-]; auto|].
    destruct (negb (truthy_str (database params)) && _); simpl;
      [intros [= <- <- <-]; auto|].
    destruct (js_or (clusterUrl params) _) as [c|]; simpl;
      [|intros [= <- <- <-]; auto].
    destruct (js_or (database params) _) as [d|]; simpl;
      [|intros [= <- <- <-]; auto].
    destruct (getClient K c (h, w)) as [[ocl|e] [h1 w1]] eqn:G; simpl.
    - pose proof (getClient_consistent _ _ _ _ _ _ Hc G) as (Hc1 & cl & -> & _).
      apply getClient_ok in G as (_ & _ & _ & _ & Hi1 & _).
      rewrite Hi in Hi1.
      destruct (client_execute K _ _ _ _) as [results|e]; simpl;
        [|intros [= <- <- <-]; auto].
      destruct (primaryResults results) as [|rawString rest]; simpl;
        [intros [= <- <- <-]; auto|].
      destruct (JSON_parse K rawString) as [rawData|e]; simpl;
        [|intros [= <- <- <-]; auto].
      destruct (get_prop rawData "data") as [rawData_data|e]; simpl;
        [|intros [= <- <- <-]; auto].
      rewrite rows_of_truthy; simpl. intros [= <- <- <-]; auto.
    - apply getClient_throw in G as [-> _]. intros [= <- <- <-]; auto. }
  destruct (executeQuery_try K params (h, w)) as [[r0|e] [h2 w2]] eqn:T;
    intros [= <- <- <-]; eapply Hgoal; reflexivity.
Qed.

End HandlerFacts.

(** ** The router *)

Section RouterFacts.

Context (K : Router.collaborators) (this : Router.ADXServer).

(** handleToolCall reads the environment and calls the handler; it neither
    reads the clock nor logs. *)
Lemma handleToolCall_state name args s :
  snd (Router.handleToolCall K name args s) = s.
Proof.
  unfold Router.handleToolCall, Router.arg, Router.getenv, bind, ret, throw, lift.
  destruct (String.eqb name "execute_kusto_query"); [|reflexivity].
  destruct args as [fields|]; simpl; [|reflexivity].
  destruct (negb (truthy_opt _) && _); simpl; [reflexivity|].
  destruct (negb (truthy_opt _) && _); simpl; reflexivity.
Qed.

(** C7. A tool name other than the one the router knows makes
    handleToolCall, and with it the request handler, throw the protocol
    error InvalidParams with the text "Unknown tool name: <name>"; neither
    returns a response. *)
Theorem unknown_tool_is_invalid_params name args s :
  name <> "execute_kusto_query" ->
  Router.handleToolCall K name args s
    = (Throw (McpError InvalidParams ("Unknown tool name: " +:+ name)), s)
  /\ exists s',
      Router.callToolRequestHandler K this name args s
        = (Throw (McpError InvalidParams ("Unknown tool name: " +:+ name)), s').
Proof.
  intros Hn.
  assert (E : String.eqb name "execute_kusto_query" = false)
    by (apply String.eqb_neq; exact Hn).
  assert (Hh : forall s0, Router.handleToolCall K name args s0
             = (Throw (McpError InvalidParams ("Unknown tool name: " +:+ name)), s0)).
  { intros s0. unfold Router.handleToolCall. rewrite E. reflexivity. }
  split; [apply Hh|].
  unfold Router.callToolRequestHandler, Router.now, Router.set_status,
    Router.get_status, Router.logger_event, try_catch_finally, try_catch,
    bind, ret, throw.
  cbv beta iota zeta. rewrite Hh. cbv beta iota zeta. eauto.
Qed.

(** C8. Every run of the request handler hands the logger exactly one more
    event. It names the tool, its duration is the difference of the two
    clock readings, and its status is "success" when handleToolCall
    returned and "failure" when it threw; the handler's own outcome is that
    of handleToolCall. *)
Theorem one_event_per_invocation name args s :
  exists r s',
    Router.callToolRequestHandler K this name args s = (r, s')
    /\ r = fst (Router.handleToolCall K name args (Router.started s))
    /\ Router.emitted s' =
         (Router.emitted s ++
          [ {| Router.ev_name := name;
               Router.ev_duration :=
                 (Router.Date_now K (S (Router.clock_reads s))
                  - Router.Date_now K (Router.clock_reads s))%Z;
               Router.ev_status :=
                 match r with Ok _ => "success" | Throw _ => "failure" end;
               Router.ev_args := Router.JSON_stringify_args K <$> args;
               Router.ev_serverName := Router.serverName this;
               Router.ev_version := Router.version this |} ])%list.
Proof.
  pose proof (handleToolCall_state name args (Router.started s)) as Hs.
  unfold Router.callToolRequestHandler, Router.now, Router.set_status,
    Router.get_status, Router.logger_event, try_catch_finally, try_catch,
    bind, ret, throw.
  unfold Router.started in *. cbv beta iota zeta.
  destruct (Router.handleToolCall K name args _) as [[r|e] s1];
    simpl in Hs; subst s1; simpl; eexists _, _; repeat split.
Qed.

End RouterFacts.

(** ** Concrete runs *)

Import Fixtures.

(** C1 on the code. On one handler, a call for
    https://EXAMPLE.kusto.windows.net followed by a call for
    https://example.kusto.windows.net builds two different clients and
    requests a token twice: the formatted URLs differ as strings and the
    cache compares them with [!==]. *)
Theorem getClient_case_variants_reconnect :
  formatClusterUrl "https://EXAMPLE.kusto.windows.net"
    <> formatClusterUrl "https://example.kusto.windows.net"
  /\ exists c1 c2 h' w',
      getClient_twice (cooperative "{}")
        "https://EXAMPLE.kusto.windows.net" "https://example.kusto.windows.net"
        (ready, no_env)
        = (Ok (Some c1, Some c2), (h', w'))
      /\ c1 <> c2
      /\ count is_GetToken (trace w') = 2
      /\ count is_NewClient (trace w') = 2.
Proof.
  split; [discriminate|].
  eexists _, _, _, _. split; [vm_compute; reflexivity|].
  split; [discriminate|]. split; reflexivity.
Qed.

Lemma executeQuery_before_initialize_witness :
  initialized new_KustoHandler = false
  /\ exists obj txt,
      executeQuery (cooperative "{}") (only_query "test query")
        (new_KustoHandler, env_foo_bar)
        = (Ok {| content := text_content (show_envelope obj); isError := Some true |},
           (new_KustoHandler, env_foo_bar))
      /\ success obj = false
      /\ error obj = Some txt
      /\ includes "not initialized" txt = true.
Proof.
  split; [reflexivity|].
  apply (executeQuery_before_initialize (cooperative "{}")). reflexivity.
Defined.

(** C4 as stated fails when both are missing: the database is missing, yet
    the envelope reports the cluster-URL requirement and says nothing about
    the database. *)
Lemma database_error_masked_by_cluster_error :
  initialized ready = true
  /\ truthy_str (database (only_query "test query")) = false
  /\ truthy_str (env no_env !! "KUSTO_DEFAULT_DATABASE") = false
  /\ executeQuery (cooperative "{}") (only_query "test query") (ready, no_env)
       = (Ok (failure_response (cooperative "{}") (only_query "test query") no_env
                (Error cluster_required_msg)),
          (ready, no_env))
  /\ error (failure_envelope (only_query "test query") no_env (Error cluster_required_msg))
       = Some cluster_required_msg
  /\ includes "Database" cluster_required_msg = false
  /\ includes "database" cluster_required_msg = false.
Proof. repeat split. Qed.

Lemma executeQuery_missing_parameters_witness :
  executeQuery (cooperative "{}") (only_query "test query") (ready, no_env)
    = (Ok (failure_response (cooperative "{}") (only_query "test query") no_env
             (Error cluster_required_msg)),
       (ready, no_env))
  /\
  executeQuery (cooperative "{}")
      {| query := "test query"; database := Some ""; clusterUrl := Some "foo" |}
      (ready, no_env)
    = (Ok (failure_response (cooperative "{}")
             {| query := "test query"; database := Some ""; clusterUrl := Some "foo" |}
             no_env (Error database_required_msg)),
       (ready, no_env)).
Proof.
  split.
  - apply (proj1 (executeQuery_missing_parameters (cooperative "{}")
                    (only_query "test query") ready no_env eq_refl));
      reflexivity.
  - apply (proj2 (executeQuery_missing_parameters (cooperative "{}")
                    {| query := "test query"; database := Some ""; clusterUrl := Some "foo" |}
                    ready no_env eq_refl));
      reflexivity.
Defined.

Lemma executeQuery_environment_defaults_witness :
  exists cl h1 w1 obj w',
    getClient (cooperative one_row_payload) "foo" (ready, env_foo_bar)
      = (Ok (Some cl), (h1, w1))
    /\ client_url cl = "https://foo.kusto.windows.net"
    /\ executeQuery (cooperative one_row_payload) (only_query "T | take 1")
         (ready, env_foo_bar)
         = (Ok {| content := text_content (show_envelope obj); isError := None |},
            (h1, w'))
    /\ trace w' = (trace w1 ++ [Execute cl "bar" "T | take 1";
                                ConsoleLog ["Response:"; show_envelope obj]])%list
    /\ success obj = true
    /\ data obj = Some (JArr [one_row]).
Proof.
  set (K := cooperative one_row_payload).
  set (cl := {| client_id := 4; client_url := "https://foo.kusto.windows.net" |}).
  set (h1 := {| currentClusterUrl := Some "https://foo.kusto.windows.net";
                kustoClient := Some cl; initialized := true |}).
  set (w1 := {| env := env env_foo_bar;
                trace := connection_calls "https://foo.kusto.windows.net" |}).
  assert (G : getClient K "foo" (ready, env_foo_bar) = (Ok (Some cl), (h1, w1)))
    by reflexivity.
  destruct (executeQuery_environment_defaults K "T | take 1" ready env_foo_bar
              cl h1 w1 {| primaryResults := [one_row_payload] |} one_row_payload []
              (JObj [("data", JArr [one_row])]) (JArr [one_row]))
    as (Hurl & _ & obj & w' & E & Ht & Ho).
  - reflexivity.
  - intros c; discriminate.
  - reflexivity.
  - reflexivity.
  - exact G.
  - reflexivity.
  - reflexivity.
  - reflexivity.
  - reflexivity.
  - reflexivity.
  - exists cl, h1, w1, obj, w'. subst obj.
    split; [exact G | split; [exact Hurl | split; [exact E | split; [exact Ht |]]]].
    split; reflexivity.
Defined.

Lemma executeQuery_row_count_witness :
  exists r s',
    executeQuery (cooperative one_row_payload) (only_query "T | take 1")
      (ready, env_foo_bar) = (Ok r, s')
    /\ isError r = None
    /\ exists obj d,
         content r = text_content (show_envelope obj)
         /\ success obj = true
         /\ data obj = Some d
         /\ r_message obj
              = Some ("Query executed successfully. Retrieved "
                      +:+ length_text (cooperative one_row_payload) d +:+ " rows.")
         /\ forall rows, d = JArr rows ->
              r_message obj
                = Some ("Query executed successfully. Retrieved "
                        +:+ pretty (length rows) +:+ " rows.").
Proof.
  set (K := cooperative one_row_payload).
  destruct (executeQuery K (only_query "T | take 1") (ready, env_foo_bar))
    as [r s'] eqn:E.
  vm_compute in E. injection E as <- <-.
  eexists _, _. split; [reflexivity|]. split; [reflexivity|].
  eapply (executeQuery_row_count K (only_query "T | take 1") (ready, env_foo_bar));
    [vm_compute; reflexivity | reflexivity].
Defined.

Lemma getClient_failure_keeps_cache_witness :
  exists w',
    getClient down_cluster "down"
      ({| currentClusterUrl := Some "https://up.kusto.windows.net";
          kustoClient := Some {| client_id := 4; client_url := "https://up.kusto.windows.net" |};
          initialized := true |}, no_env)
      = (Throw sign_in_required,
         ({| currentClusterUrl := Some "https://up.kusto.windows.net";
             kustoClient := Some {| client_id := 4; client_url := "https://up.kusto.windows.net" |};
             initialized := true |}, w'))
    /\ getClient down_cluster "up"
         ({| currentClusterUrl := Some "https://up.kusto.windows.net";
             kustoClient := Some {| client_id := 4; client_url := "https://up.kusto.windows.net" |};
             initialized := true |}, w')
       = (Ok (Some {| client_id := 4; client_url := "https://up.kusto.windows.net" |}),
          ({| currentClusterUrl := Some "https://up.kusto.windows.net";
              kustoClient := Some {| client_id := 4; client_url := "https://up.kusto.windows.net" |};
              initialized := true |}, w')).
Proof.
  destruct (getClient_failure_keeps_cache down_cluster "down"
              {| currentClusterUrl := Some "https://up.kusto.windows.net";
                 kustoClient := Some {| client_id := 4; client_url := "https://up.kusto.windows.net" |};
                 initialized := true |}
              no_env sign_in_required)
    as (w' & G & Hreuse).
  - reflexivity.
  - reflexivity.
  - left. reflexivity.
  - exists w'. split; [exact G|].
    apply (Hreuse "up"); reflexivity.
Defined.

Lemma executeQuery_no_data_field_witness :
  exists obj s',
    executeQuery (cooperative "{}") (only_query "T | take 1") (ready, env_foo_bar)
      = (Ok {| content := text_content (show_envelope obj); isError := None |}, s')
    /\ success obj = true
    /\ data obj = Some (JArr [])
    /\ r_message obj = Some "Query executed successfully. Retrieved 0 rows.".
Proof.
  set (cl := {| client_id := 4; client_url := "https://foo.kusto.windows.net" |}).
  apply (executeQuery_no_data_field (cooperative "{}") (only_query "T | take 1")
           ready env_foo_bar "foo" "bar" cl
           {| currentClusterUrl := Some "https://foo.kusto.windows.net";
              kustoClient := Some cl; initialized := true |}
           {| env := env env_foo_bar;
              trace := connection_calls "https://foo.kusto.windows.net" |}
           {| primaryResults := ["{}"] |} "{}" [] (JObj []));
    try reflexivity; discriminate.
Defined.

(** C10 as stated fails on the payload [null]: it parses, it has no [data]
    member, and reading [rawData.data] throws, so the answer is a failure
    envelope. *)
Lemma null_payload_is_a_failure :
  JSON_parse (cooperative "null") "null" = Ok JNull
  /\ lacks_data_field JNull
  /\ exists s',
      executeQuery (cooperative "null") (only_query "T | take 1") (ready, env_foo_bar)
        = (Ok (failure_response (cooperative "null") (only_query "T | take 1") env_foo_bar
                 (TypeError "Cannot read properties of null (reading 'data')")),
           s')
  /\ isError (failure_response (cooperative "null") (only_query "T | take 1") env_foo_bar
                (TypeError "Cannot read properties of null (reading 'data')"))
       = Some true
  /\ success (failure_envelope (only_query "T | take 1") env_foo_bar
                (TypeError "Cannot read properties of null (reading 'data')"))
       = false.
Proof.
  split; [reflexivity|]. split; [exact I|].
  eexists. split; [vm_compute; reflexivity|]. split; reflexivity.
Qed.

Lemma unknown_tool_is_invalid_params_witness :
  "drop_table" <> "execute_kusto_query"
  /\ Router.handleToolCall router_collaborators "drop_table" None router_start
     = (Throw (McpError InvalidParams "Unknown tool name: drop_table"), router_start).
Proof.
  split; [discriminate|].
  apply (proj1 (unknown_tool_is_invalid_params router_collaborators adx_server
                  "drop_table" None router_start ltac:(discriminate))).
Defined.

(** The handler throws while the query runs: the request handler rethrows
    and the one event logged has status "failure" and duration 7. *)
Example event_when_handler_throws :
  exists s',
    Router.callToolRequestHandler router_collaborators adx_server
      "execute_kusto_query" (Some [("query", JStr "T | take 1")]) router_start
      = (Throw (JsError "Error" "socket hang up"), s')
    /\ Router.emitted s'
       = [ {| Router.ev_name := "execute_kusto_query";
              Router.ev_duration := 7;
              Router.ev_status := "failure";
              Router.ev_args := Some "{...}";
              Router.ev_serverName := "adx_server";
              Router.ev_version := "0.1.5" |} ].
Proof. eexists. split; [vm_compute; reflexivity | reflexivity]. Qed.

(** * Further properties of the handler *)

Section MoreHandlerFacts.

Context (K : collaborators).

Lemma prefix_https_app (rest : string) :
  String.prefix "https://" ("https://" +:+ rest) = true.
Proof.
  simpl.
  repeat (match goal with |- context [Ascii.ascii_dec ?a ?b] =>
            destruct (Ascii.ascii_dec a b); [|congruence] end).
  destruct rest; reflexivity.
Qed.

Lemma formatClusterUrl_https c :
  String.prefix "https://" (formatClusterUrl c) = true.
Proof.
  unfold formatClusterUrl.
  destruct (String.prefix "https://" c) eqn:E; [exact E|].
  apply prefix_https_app.
Qed.

(** X1. formatClusterUrl always yields a string that starts with https://,
    and formatting a formatted URL changes nothing. *)
Theorem formatClusterUrl_normal_form c :
  String.prefix "https://" (formatClusterUrl c) = true
  /\ formatClusterUrl (formatClusterUrl c) = formatClusterUrl c.
Proof.
  pose proof (formatClusterUrl_https c) as Hp.
  split; [exact Hp|].
  unfold formatClusterUrl at 1. rewrite Hp. reflexivity.
Qed.

(** X2. The cache holds one client. On a handler with a consistent cache,
    after a successful call for one cluster, a successful call for a
    cluster with another formatted URL and then one for the first again
    both connect anew (console line, credential, token, builder, client);
    the second client is not the first, and the cache ends on the first
    cluster's URL. *)
Theorem getClient_switching_reconnects c1 c2 h w r1 h1 w1 r2 h2 w2 r3 h3 w3 :
  cache_consistent h ->
  formatClusterUrl c1 <> formatClusterUrl c2 ->
  getClient K c1 (h, w) = (Ok r1, (h1, w1)) ->
  getClient K c2 (h1, w1) = (Ok r2, (h2, w2)) ->
  getClient K c1 (h2, w2) = (Ok r3, (h3, w3)) ->
  r1 <> r2
  /\ trace w2 = (trace w1 ++ connection_calls (formatClusterUrl c2))%list
  /\ trace w3 = (trace w2 ++ connection_calls (formatClusterUrl c1))%list
  /\ currentClusterUrl h3 = Some (formatClusterUrl c1).
Proof.
  intros Hc Hne G1 G2 G3.
  pose proof (getClient_consistent K _ _ _ _ _ _ Hc G1) as (Hc1 & cl1 & -> & Hurl1).
  pose proof (getClient_consistent K _ _ _ _ _ _ Hc1 G2) as (Hc2 & cl2 & -> & Hurl2).
  apply getClient_ok in G1 as (? & _ & _ & Hu1 & _).
  apply getClient_ok in G2 as (? & _ & _ & Hu2 & _ & [[-> ->]|[_ Ht2]]);
    [congruence|].
  apply getClient_ok in G3 as (? & _ & _ & Hu3 & _ & [[-> ->]|[_ Ht3]]);
    [congruence|].
  repeat split; try assumption.
  intros [= E]. apply Hne. rewrite <- Hurl1, <- Hurl2, E. reflexivity.
Qed.

(** X3. An empty-string [clusterUrl] or [database] parameter is treated
    exactly as an absent one: the whole call, response and effects, is the
    same. *)
Theorem executeQuery_empty_is_absent q d c s :
  executeQuery K {| query := q; database := d; clusterUrl := Some "" |} s
    = executeQuery K {| query := q; database := d; clusterUrl := None |} s
  /\ executeQuery K {| query := q; database := Some ""; clusterUrl := c |} s
    = executeQuery K {| query := q; database := None; clusterUrl := c |} s.
Proof. split; reflexivity. Qed.

(** *** The shape of a call *)

Lemma failure_response_env params w w' e :
  env w' = env w ->
  failure_response K params w' e = failure_response K params w e.
Proof. intros E. unfold failure_response, failure_envelope. rewrite E. reflexivity. Qed.

(** Every way through executeQuery: it fails before connecting, or the
    connection fails, or the connection is made and the query is issued
    and then either something fails or the rows are returned. *)
Lemma executeQuery_inv params h w r h' w' :
  executeQuery K params (h, w) = (r, (h', w')) ->
  env w' = env w
  /\ ((exists e, r = Ok (failure_response K params w e) /\ h' = h /\ w' = w)
      \/ exists c d,
          js_or (clusterUrl params) (env w !! "KUSTO_DEFAULT_CLUSTER") = Some c
          /\ js_or (database params) (env w !! "KUSTO_DEFAULT_DATABASE") = Some d
          /\ initialized h = true
          /\ ((exists e w1,
                 getClient K c (h, w) = (Throw e, (h, w1))
                 /\ r = Ok (failure_response K params w e) /\ h' = h /\ w' = w1)
              \/ exists cl h1 w1,
                  getClient K c (h, w) = (Ok (Some cl), (h1, w1))
                  /\ h' = h1
                  /\ ((exists e,
                         r = Ok (failure_response K params w e)
                         /\ w' = record (Execute cl d (query params)) w1)
                      \/ exists rows,
                          truthy rows = true
                          /\ r = Ok (success_response K params w rows)
                          /\ w' = record
                                    (ConsoleLog ["Response:";
                                       JSON_stringify K (success_envelope K params w rows)])
                                    (record (Execute cl d (query params)) w1)))).
Proof.
  rewrite executeQuery_of_try.
  unfold executeQuery_try.
  unfold bind, get_this, getenv, assert_defined, throw, ret, lift, console_log,
    call, prepareResponseObj; simpl.
  destruct (initialized h) eqn:Hi; simpl;
    [|intros [= <- <- <-]; split; [reflexivity|left; eauto]].
  destruct (negb (truthy_str (clusterUrl params)) && _); simpl;
    [intros [= <- <- <-]; split; [reflexivity|left; eauto]|].
  destruct (negb (truthy_str (database params)) && _); simpl;
    [intros [= <- <- <-]; split; [reflexivity|left; eauto]|].
  destruct (js_or (clusterUrl params) _) as [c|] eqn:Ec; simpl;
    [|intros [= <- <- <-]; split; [reflexivity|left; eauto]].
  destruct (js_or (database params) _) as [d|] eqn:Ed; simpl;
    [|intros [= <- <- <-]; split; [reflexivity|left; eauto]].
  destruct (getClient K c (h, w)) as [[ocl|e] [h1 w1]] eqn:G; simpl.
  - pose proof (getClient_env K _ _ _ _ _ _ G) as He.
    pose proof (getClient_ok K _ _ _ _ _ _ G) as (cl & -> & _).
    destruct (client_execute K _ _ _ _) as [results|e]; simpl.
    + destruct (primaryResults results) as [|rawString rest]; simpl.
      * intros [= <- <- <-]. split; [exact He|]. right. exists c, d.
        repeat split; try assumption. right. exists cl, h1, w1.
        split; [exact G|]. split; [reflexivity|]. left. eexists. split; [|reflexivity].
        f_equal. apply failure_response_env. exact He.
      * destruct (JSON_parse K rawString) as [rawData|e]; simpl.
        -- destruct (get_prop rawData "data") as [rawData_data|e]; simpl.
           ++ rewrite rows_of_truthy; simpl. intros [= <- <- <-].
              split; [exact He|]. right. exists c, d.
              repeat split; try assumption. right. exists cl, h1, w1.
              split; [exact G|]. split; [reflexivity|].
              right. exists (rows_of rawData_data).
              split; [apply rows_of_truthy|].
              unfold success_response, success_envelope, record; simpl.
              rewrite He. split; reflexivity.
           ++ intros [= <- <- <-]. split; [exact He|]. right. exists c, d.
              repeat split; try assumption. right. exists cl, h1, w1.
              split; [exact G|]. split; [reflexivity|]. left. eexists. split; [|reflexivity].
              f_equal. apply failure_response_env. exact He.
        -- intros [= <- <- <-]. split; [exact He|]. right. exists c, d.
           repeat split; try assumption. right. exists cl, h1, w1.
           split; [exact G|]. split; [reflexivity|]. left. eexists. split; [|reflexivity].
           f_equal. apply failure_response_env. exact He.
    + intros [= <- <- <-]. split; [exact He|]. right. exists c, d.
      repeat split; try assumption. right. exists cl, h1, w1.
      split; [exact G|]. split; [reflexivity|]. left. eexists. split; [|reflexivity].
      f_equal. apply failure_response_env. exact He.
  - pose proof (getClient_throw K _ _ _ _ _ _ G) as [-> He].
    intros [= <- <- <-]. split; [exact He|]. right. exists c, d.
    repeat split; try assumption. left. exists e, w1.
    split; [exact G|]. split; [|split; reflexivity]. f_equal. apply failure_response_env. exact He.
Qed.

(** *** Counting calls *)

Lemma count_app p (t1 t2 : list event) :
  count p (t1 ++ t2)%list = count p t1 + count p t2.
Proof. unfold count. rewrite filter_app, length_app. reflexivity. Qed.

Lemma count_record p e w :
  count p (trace (record e w)) = count p (trace w) + (if p e then 1 else 0).
Proof.
  unfold record; simpl. rewrite count_app. f_equal.
  unfold count. rewrite filter_cons. destruct (p e); reflexivity.
Qed.

(** The calls of one getClient, whatever its outcome: at most one token
    request and one client construction, and no query. *)
Lemma getClient_calls c h w r h1 w1 :
  getClient K c (h, w) = (r, (h1, w1)) ->
  exists ext,
    trace w1 = (trace w ++ ext)%list
    /\ count is_GetToken ext <= 1
    /\ count is_NewClient ext <= 1
    /\ count is_Execute ext = 0.
Proof.
  run. destruct (must_reinitialize h (formatClusterUrl c)); simpl.
  - destruct (AzureCliCredential_new K _); simpl;
      [destruct (credential_getToken K _ _); simpl;
       [destruct (KustoConnectionStringBuilder_withTokenCredential K _ _); simpl;
        [destruct (KustoClient_new K _ _); simpl|]|]|];
      intros [= <- <- <-]; simpl; rewrite <- ?app_assoc; simpl;
      eexists; (split; [reflexivity|]); vm_compute; repeat constructor.
  - intros [= <- <- <-]. exists []. rewrite app_nil_r. vm_compute. repeat constructor.
Qed.

(** getClient reads nothing of the environment. *)
Lemma getClient_other_env c h w e2 :
  getClient K c (h, {| env := e2; trace := trace w |})
  = (fst (getClient K c (h, w)),
     (fst (snd (getClient K c (h, w))),
      {| env := e2; trace := trace (snd (snd (getClient K c (h, w)))) |})).
Proof.
  run. destruct (must_reinitialize h (formatClusterUrl c)); simpl.
  - destruct (AzureCliCredential_new K _); simpl;
      [destruct (credential_getToken K _ _); simpl;
       [destruct (KustoConnectionStringBuilder_withTokenCredential K _ _); simpl;
        [destruct (KustoClient_new K _ _); simpl|]|]|];
      reflexivity.
  - reflexivity.
Qed.

Lemma js_or_else_nonempty m : js_or_else (Some m) default_error <> "".
Proof.
  unfold js_or_else; simpl.
  destruct (String.eqb_spec m ""); simpl; [discriminate | assumption].
Qed.

(** X4. When the call gives both a non-empty [clusterUrl] and a non-empty
    [database], the environment defaults play no part: in any other
    environment the call returns the same response, leaves the same handler
    and makes the same calls. *)
Theorem executeQuery_parameters_override_environment params h w e2 r h' w' :
  truthy_str (clusterUrl params) = true ->
  truthy_str (database params) = true ->
  executeQuery K params (h, w) = (r, (h', w')) ->
  executeQuery K params (h, {| env := e2; trace := trace w |})
    = (r, (h', {| env := e2; trace := trace w' |})).
Proof.
  destruct params as [q [[|d0 d]|] [[|c0 c]|]]; simpl; try discriminate.
  intros _ _.
  rewrite !executeQuery_of_try.
  unfold executeQuery_try.
  unfold bind, get_this, getenv, assert_defined, throw, ret, lift, console_log,
    call, prepareResponseObj, failure_response, failure_envelope, js_or; simpl.
  destruct (initialized h); simpl; [|intros [= <- <- <-]; reflexivity].
  rewrite getClient_other_env.
  destruct (getClient K (String c0 c) (h, w)) as [[ocl|e] [h1 w1]]; simpl;
    [|intros [= <- <- <-]; reflexivity].
  destruct ocl as [cl|]; simpl; [|intros [= <- <- <-]; reflexivity].
  destruct (client_execute K _ _ _ _) as [results|e]; simpl;
    [|intros [= <- <- <-]; reflexivity].
  destruct (primaryResults results) as [|rawString rest]; simpl;
    [intros [= <- <- <-]; reflexivity|].
  destruct (JSON_parse K rawString) as [rawData|e]; simpl;
    [|intros [= <- <- <-]; reflexivity].
  destruct (get_prop rawData "data") as [rawData_data|e]; simpl;
    [|intros [= <- <- <-]; reflexivity].
  rewrite rows_of_truthy; simpl.
  intros [= <- <- <-]; reflexivity.
Qed.

(** X5. One call of executeQuery asks for at most one token, constructs at
    most one client and issues at most one query; nothing is retried. The
    calls it makes are appended to the record, which is never rewritten. *)
Theorem executeQuery_call_bounds params h w r h' w' :
  executeQuery K params (h, w) = (r, (h', w')) ->
  exists ext,
    trace w' = (trace w ++ ext)%list
    /\ count is_GetToken ext <= 1
    /\ count is_NewClient ext <= 1
    /\ count is_Execute ext <= 1.
Proof.
  intros E. apply executeQuery_inv in E as [_ E].
  destruct E as [(e & _ & _ & ->)
                | (c & d & _ & _ & _ &
                   [(e & w1 & G & _ & _ & ->)
                   | (cl & h1 & w1 & G & _ & [(e & _ & ->)|(rows & _ & _ & ->)])])].
  - exists []. rewrite app_nil_r. vm_compute. repeat constructor.
  - apply getClient_calls in G as (ext & Ht & H1 & H2 & H3).
    exists ext. rewrite H3. repeat split; auto.
  - apply getClient_calls in G as (ext & Ht & H1 & H2 & H3).
    exists (ext ++ [Execute cl d (query params)])%list.
    split; [unfold record; simpl; rewrite Ht, <- app_assoc; reflexivity|].
    rewrite !count_app, H3.
    change (count is_GetToken [Execute cl d (query params)]) with 0.
    change (count is_NewClient [Execute cl d (query params)]) with 0.
    change (count is_Execute [Execute cl d (query params)]) with 1.
    rewrite !Nat.add_0_r. repeat split; auto.
  - apply getClient_calls in G as (ext & Ht & H1 & H2 & H3).
    set (line := ConsoleLog ["Response:";
                   JSON_stringify K (success_envelope K params w rows)]).
    exists (ext ++ [Execute cl d (query params); line])%list.
    split; [unfold record; simpl; rewrite Ht, <- !app_assoc; reflexivity|].
    rewrite !count_app, H3.
    change (count is_GetToken [Execute cl d (query params); line]) with 0.
    change (count is_NewClient [Execute cl d (query params); line]) with 0.
    change (count is_Execute [Execute cl d (query params); line]) with 1.
    rewrite !Nat.add_0_r. repeat split; auto.
Qed.

(** X6. Every answer of executeQuery is one text block holding an envelope
    of one of two shapes. Without the error flag: [success] true, data
    present and truthy, a message, no [error]. With the error flag:
    [success] false, no data, no message, and an [error] text that is never
    empty. In both the echoed cluster URL starts with https:// and the
    query is echoed as given. *)
Theorem executeQuery_envelope_shape params s :
  exists r s' obj,
    executeQuery K params s = (Ok r, s')
    /\ content r = [ {| type := "text"; text := JSON_stringify K obj |} ]
    /\ String.prefix "https://" (in_clusterUrl (input obj)) = true
    /\ in_query (input obj) = query params
    /\ ((isError r = None /\ success obj = true /\ error obj = None
         /\ (exists d, data obj = Some d /\ truthy d = true)
         /\ is_Some (r_message obj))
        \/ (isError r = Some true /\ success obj = false
            /\ data obj = None /\ r_message obj = None
            /\ exists txt, error obj = Some txt /\ txt <> "")).
Proof.
  destruct s as [h w].
  destruct (executeQuery K params (h, w)) as [r [h' w']] eqn:E.
  assert (Hfail : forall e,
            exists obj,
              content (failure_response K params w e)
                = [ {| type := "text"; text := JSON_stringify K obj |} ]
              /\ String.prefix "https://" (in_clusterUrl (input obj)) = true
              /\ in_query (input obj) = query params
              /\ ((isError (failure_response K params w e) = None /\ success obj = true
                   /\ error obj = None
                   /\ (exists d, data obj = Some d /\ truthy d = true)
                   /\ is_Some (r_message obj))
                  \/ (isError (failure_response K params w e) = Some true
                      /\ success obj = false
                      /\ data obj = None /\ r_message obj = None
                      /\ exists txt, error obj = Some txt /\ txt <> ""))).
  { intros e. exists (failure_envelope params w e).
    split; [reflexivity|]. split; [apply formatClusterUrl_https|].
    split; [reflexivity|]. right. repeat split.
    eexists. split; [reflexivity|]. apply js_or_else_nonempty. }
  apply executeQuery_inv in E as [_ E].
  destruct E as [(e & -> & _)
                | (c & d & _ & _ & _ &
                   [(e & w1 & _ & -> & _)
                   | (cl & h1 & w1 & _ & _ & [(e & -> & _)|(rows & Ht & -> & _)])])].
  - destruct (Hfail e) as (obj & Ho). eexists _, _, obj. split; [reflexivity|exact Ho].
  - destruct (Hfail e) as (obj & Ho). eexists _, _, obj. split; [reflexivity|exact Ho].
  - destruct (Hfail e) as (obj & Ho). eexists _, _, obj. split; [reflexivity|exact Ho].
  - eexists _, _, (success_envelope K params w rows).
    split; [reflexivity|]. split; [reflexivity|].
    split; [apply formatClusterUrl_https|].
    split; [reflexivity|]. left. repeat split; eauto.
Qed.

(** X7. When the cluster answers with no primary result at all, reading
    the first one throws, and the call ends in a failure envelope after the
    query was issued: an empty answer is an error, not zero rows. *)
Theorem executeQuery_no_primary_result params h w c d cl h1 w1 results :
  initialized h = true ->
  js_or (clusterUrl params) (env w !! "KUSTO_DEFAULT_CLUSTER") = Some c -> c <> "" ->
  js_or (database params) (env w !! "KUSTO_DEFAULT_DATABASE") = Some d -> d <> "" ->
  getClient K c (h, w) = (Ok (Some cl), (h1, w1)) ->
  client_execute K (trace w1) cl d (query params) = Ok results ->
  primaryResults results = [] ->
  exists e,
    executeQuery K params (h, w)
      = (Ok (failure_response K params w e),
         (h1, record (Execute cl d (query params)) w1))
    /\ isError (failure_response K params w e) = Some true
    /\ success (failure_envelope params w e) = false.
Proof.
  intros Hinit Hc Hc' Hd Hd' G Hx Hp.
  pose proof (resolved_guard _ _ _ Hc Hc') as Gc.
  pose proof (resolved_guard _ _ _ Hd Hd') as Gd.
  pose proof (getClient_env K _ _ _ _ _ _ G) as He.
  exists (TypeError "Cannot read properties of undefined (reading 'toString')").
  split; [|split; reflexivity].
  rewrite executeQuery_of_try.
  unfold executeQuery_try, bind, get_this, getenv, assert_defined, throw, ret,
    lift, call.
  cbv beta iota zeta delta [fst]. rewrite Hinit.
  change (negb true) with false. cbv beta iota zeta.
  rewrite Gc. cbv beta iota zeta. rewrite Gd. cbv beta iota zeta.
  rewrite Hc, Hd. cbv beta iota zeta. rewrite G. cbv beta iota zeta.
  rewrite Hx. cbv beta iota zeta. rewrite Hp.
  unfold failure_response, failure_envelope, record; simpl.
  rewrite He. reflexivity.
Qed.

(** X8. A [data] member that is present but falsy ([null], [false], [0],
    the empty string) counts as no rows: the call succeeds with an empty
    data list and the message that 0 rows were retrieved. *)
Theorem executeQuery_falsy_data params h w c d cl h1 w1 results payload rest rawData v :
  initialized h = true ->
  js_or (clusterUrl params) (env w !! "KUSTO_DEFAULT_CLUSTER") = Some c -> c <> "" ->
  js_or (database params) (env w !! "KUSTO_DEFAULT_DATABASE") = Some d -> d <> "" ->
  getClient K c (h, w) = (Ok (Some cl), (h1, w1)) ->
  client_execute K (trace w1) cl d (query params) = Ok results ->
  primaryResults results = payload :: rest ->
  JSON_parse K payload = Ok rawData ->
  get_prop rawData "data" = Ok (Some v) ->
  truthy v = false ->
  exists obj s',
    executeQuery K params (h, w)
      = (Ok {| content := text_content (JSON_stringify K obj); isError := None |}, s')
    /\ success obj = true
    /\ data obj = Some (JArr [])
    /\ r_message obj = Some "Query executed successfully. Retrieved 0 rows.".
Proof.
  intros Hinit Hc Hc' Hd Hd' G Hx Hp Hj Hg Hv.
  pose proof (executeQuery_success K params h w c d cl h1 w1 results payload rest
                rawData (Some v) Hinit Hc Hc' Hd Hd' G Hx Hp Hj Hg) as E.
  assert (Hr : rows_of (Some v) = JArr []) by (unfold rows_of; simpl; rewrite Hv; reflexivity).
  rewrite Hr in E.
  eexists _, _. split; [exact E|]. repeat split.
Qed.

(** X9. executeQuery keeps what it does not own: [process.env] is not
    written, the [initialized] flag keeps its value, and a cache whose
    client is bound to the cached URL stays so. *)
Theorem executeQuery_preserves params h w r h' w' :
  executeQuery K params (h, w) = (r, (h', w')) ->
  env w' = env w
  /\ initialized h' = initialized h
  /\ (cache_consistent h -> cache_consistent h').
Proof.
  intros E. apply executeQuery_inv in E as [He E]. split; [exact He|].
  destruct E as [(e & _ & -> & _)
                | (c & d & _ & _ & _ &
                   [(e & w1 & _ & _ & -> & _)
                   | (cl & h1 & w1 & G & -> & _)])]; auto.
  split.
  - apply getClient_ok in G as (? & _ & _ & _ & Hi & _). exact Hi.
  - intros Hc. apply (getClient_consistent K _ _ _ _ _ _ Hc G).
Qed.

(** X10. A session of any number of executeQuery calls on one handler never
    throws: it returns one response per request, each a single text block,
    and leaves the environment, the [initialized] flag and the consistency
    of the cache as they were. *)
Theorem executeQueries_session requests h w :
  exists rs h' w',
    executeQueries K requests (h, w) = (Ok rs, (h', w'))
    /\ length rs = length requests
    /\ Forall (fun r => length (content r) = 1) rs
    /\ env w' = env w
    /\ initialized h' = initialized h
    /\ (cache_consistent h -> cache_consistent h').
Proof.
  revert h w. induction requests as [|params rest IH]; intros h w.
  - exists [], h, w. repeat split; auto.
  - destruct (executeQuery K params (h, w)) as [r [h1 w1]] eqn:E.
    assert (exists resp, r = Ok resp /\ length (content resp) = 1)
      as (resp & -> & Hlen).
    { pose proof E as E'. apply executeQuery_inv in E' as [_ E'].
      destruct E' as [(e & -> & _)
                     | (c & d & _ & _ & _ &
                        [(e & w2 & _ & -> & _)
                        | (cl & h2 & w2 & _ & _ & [(e & -> & _)|(rows & _ & -> & _)])])];
        eexists; split; reflexivity. }
    pose proof (executeQuery_inv _ _ _ _ _ _ E) as [He _].
    assert (Hp : initialized h1 = initialized h
                 /\ (cache_consistent h -> cache_consistent h1)).
    { pose proof E as E'. apply executeQuery_inv in E' as [_ E'].
      destruct E' as [(e & _ & -> & _)
                     | (c & d & _ & _ & _ &
                        [(e & w2 & _ & _ & -> & _)
                        | (cl & h2 & w2 & G & -> & _)])]; auto.
      split.
      - apply getClient_ok in G as (? & _ & _ & _ & Hi & _). exact Hi.
      - intros Hc. apply (getClient_consistent K _ _ _ _ _ _ Hc G). }
    destruct Hp as [Hi Hc].
    destruct (IH h1 w1) as (rs & h' & w' & Es & Hl & Hall & He' & Hi' & Hc').
    exists (resp :: rs), h', w'.
    split.
    { simpl. unfold bind at 1. rewrite E. unfold bind at 1. rewrite Es. reflexivity. }
    split; [simpl; congruence|].
    split; [constructor; assumption|].
    split; [congruence|]. split; [congruence|]. auto.
Qed.

(** X11. After a call that answered without the error flag, a call whose
    cluster resolves to the same formatted URL runs on the cached client:
    the handler is left as it is and no further token is requested and no
    further client constructed. *)
Theorem executeQuery_reuses_connection p1 p2 c1 c2 h w r1 h1 w1 r2 h2 w2 :
  js_or (clusterUrl p1) (env w !! "KUSTO_DEFAULT_CLUSTER") = Some c1 ->
  js_or (clusterUrl p2) (env w !! "KUSTO_DEFAULT_CLUSTER") = Some c2 ->
  formatClusterUrl c2 = formatClusterUrl c1 ->
  executeQuery K p1 (h, w) = (Ok r1, (h1, w1)) ->
  isError r1 = None ->
  executeQuery K p2 (h1, w1) = (r2, (h2, w2)) ->
  h2 = h1
  /\ count is_GetToken (trace w2) = count is_GetToken (trace w1)
  /\ count is_NewClient (trace w2) = count is_NewClient (trace w1).
Proof.
  intros J1 J2 Hf E1 Herr E2.
  apply executeQuery_inv in E1 as [He1 E1].
  assert (exists cl, kustoClient h1 = Some cl
                     /\ currentClusterUrl h1 = Some (formatClusterUrl c1))
    as (cl & Hcl & Hu).
  { destruct E1 as [(e & [= ->] & _)
                   | (c & d & Jc & _ & _ &
                      [(e & w3 & _ & [= ->] & _)
                      | (cl & h3 & w3 & G & -> & [(e & [= ->] & _)|_])])];
      try discriminate.
    rewrite J1 in Jc. injection Jc as <-.
    apply getClient_ok in G as (cl' & _ & Hcl & Hu & _). eauto. }
  clear E1.
  apply executeQuery_inv in E2 as [He2 E2].
  destruct E2 as [(e & _ & -> & ->)
                | (c & d & Jc & _ & _ &
                   [(e & w3 & G & _ & _ & _)
                   | (cl' & h3 & w3 & G & -> & Hw)])].
  - repeat split.
  - rewrite He1, J2 in Jc. injection Jc as <-.
    rewrite (getClient_cached K c2 h1 w1 cl Hcl) in G by (rewrite Hf; exact Hu).
    discriminate.
  - rewrite He1, J2 in Jc. injection Jc as <-.
    rewrite (getClient_cached K c2 h1 w1 cl Hcl) in G by (rewrite Hf; exact Hu).
    injection G as <- <- <-.
    split; [reflexivity|].
    destruct Hw as [(e & _ & ->)|(rows & _ & _ & ->)];
      rewrite ?count_record; simpl; rewrite ?Nat.add_0_r; split; reflexivity.
Qed.

End MoreHandlerFacts.

(** * Further properties of the routers *)

Section MoreRouterFacts.

Context (K : Router.collaborators) (this : Router.ADXServer).

(** X12. For [execute_kusto_query] with an arguments object, the router
    checks the parameters itself, the cluster first: without a truthy
    [clusterUrl] argument and a non-empty KUSTO_DEFAULT_CLUSTER it throws
    InvalidParams with the cluster-URL text; with a cluster but without a
    truthy [database] argument and a non-empty KUSTO_DEFAULT_DATABASE it
    throws InvalidParams with the database text. Neither outcome depends on
    the handler object. *)
Theorem handleToolCall_validates fields s :
  (truthy_opt (assoc "clusterUrl" fields) = false ->
   truthy_str (Router.r_env s !! "KUSTO_DEFAULT_CLUSTER") = false ->
   Router.handleToolCall K "execute_kusto_query" (Some fields) s
     = (Throw (McpError InvalidParams Router.cluster_required_msg), s))
  /\
  (negb (truthy_opt (assoc "clusterUrl" fields))
     && negb (truthy_str (Router.r_env s !! "KUSTO_DEFAULT_CLUSTER")) = false ->
   truthy_opt (assoc "database" fields) = false ->
   truthy_str (Router.r_env s !! "KUSTO_DEFAULT_DATABASE") = false ->
   Router.handleToolCall K "execute_kusto_query" (Some fields) s
     = (Throw (McpError InvalidParams Router.database_required_msg), s)).
Proof.
  split.
  - intros Hc He.
    unfold Router.handleToolCall, Router.arg, Router.getenv, bind, ret, throw, lift.
    rewrite String.eqb_refl. cbv beta iota zeta.
    cbn [Router.tp_clusterUrl Router.tp_database].
    rewrite Hc, He. reflexivity.
  - intros Hg Hd He.
    unfold Router.handleToolCall, Router.arg, Router.getenv, bind, ret, throw, lift.
    rewrite String.eqb_refl. cbv beta iota zeta.
    cbn [Router.tp_clusterUrl Router.tp_database].
    rewrite Hg. cbv beta iota zeta. rewrite Hd, He. reflexivity.
Qed.

(** X13. When both parameters resolve (a truthy argument of any JSON type,
    or a non-empty environment default), handleToolCall passes the three
    arguments through untouched, absent ones as undefined, and its outcome
    is the handler's, response or exception. *)
Theorem handleToolCall_delegates fields s :
  negb (truthy_opt (assoc "clusterUrl" fields))
    && negb (truthy_str (Router.r_env s !! "KUSTO_DEFAULT_CLUSTER")) = false ->
  negb (truthy_opt (assoc "database" fields))
    && negb (truthy_str (Router.r_env s !! "KUSTO_DEFAULT_DATABASE")) = false ->
  Router.handleToolCall K "execute_kusto_query" (Some fields) s
    = (Router.adxHandler_executeQuery K
         {| Router.tp_query := assoc "query" fields;
            Router.tp_database := assoc "database" fields;
            Router.tp_clusterUrl := assoc "clusterUrl" fields |},
       s).
Proof.
  intros Hc Hd.
  unfold Router.handleToolCall, Router.arg, Router.getenv, bind, ret, throw, lift.
  rewrite String.eqb_refl. cbv beta iota zeta.
  cbn [Router.tp_clusterUrl Router.tp_database].
  rewrite Hc. cbv beta iota zeta. rewrite Hd. cbv beta iota zeta.
  destruct (Router.adxHandler_executeQuery K _); reflexivity.
Qed.

(** X14. A call of [execute_kusto_query] without an arguments object fails
    on reading [args.query]: the request handler throws a TypeError, not
    the protocol's InvalidParams, and logs the call as a failure with no
    arguments text. *)
Theorem callTool_without_arguments s :
  exists e s',
    Router.callToolRequestHandler K this "execute_kusto_query" None s = (Throw e, s')
    /\ e = TypeError "Cannot read properties of undefined (reading 'query')"
    /\ (forall code msg, e <> McpError code msg)
    /\ exists ev,
         Router.emitted s' = (Router.emitted s ++ [ev])%list
         /\ Router.ev_status ev = "failure"
         /\ Router.ev_args ev = None.
Proof.
  eexists _, _. split; [reflexivity|]. split; [reflexivity|].
  split; [discriminate|]. eexists. repeat split.
Qed.

End MoreRouterFacts.

Section Router2Facts.

Context (K : Router2.collaborators).

(** X15. In the server with three tools, a name that is none of
    [execute_kusto_query], [list_tables], [get_table_schema] makes
    handleToolCall throw InvalidParams with the text "Unknown tool name:
    <name>", whatever the arguments; the state is untouched. *)
Theorem handleToolCall2_unknown_tool name args s :
  name ∉ Router2.tool_names ->
  Router2.handleToolCall K name args s
    = (Throw (McpError InvalidParams ("Unknown tool name: " +:+ name)), s).
Proof.
  unfold Router2.tool_names. intros Hn.
  assert (H1 : String.eqb name "execute_kusto_query" = false)
    by (apply String.eqb_neq; intros ->; apply Hn; set_solver).
  assert (H2 : String.eqb name "list_tables" = false)
    by (apply String.eqb_neq; intros ->; apply Hn; set_solver).
  assert (H3 : String.eqb name "get_table_schema" = false)
    by (apply String.eqb_neq; intros ->; apply Hn; set_solver).
  unfold Router2.handleToolCall. rewrite H1, H2, H3. reflexivity.
Qed.

(** X16. The three tools share one validation, done before the handler is
    asked: for each of them, with an arguments object, a missing cluster
    (no truthy [clusterUrl], no non-empty ADX_DEFAULT_CLUSTER) throws
    InvalidParams with the cluster-URL text, and with a cluster a missing
    database throws InvalidParams with the database text. *)
Theorem handleToolCall2_validates name fields s :
  name ∈ Router2.tool_names ->
  (truthy_opt (assoc "clusterUrl" fields) = false ->
   truthy_str (Router2.r_env s !! "ADX_DEFAULT_CLUSTER") = false ->
   Router2.handleToolCall K name (Some fields) s
     = (Throw (McpError InvalidParams Router2.cluster_required_msg), s))
  /\
  (negb (truthy_opt (assoc "clusterUrl" fields))
     && negb (truthy_str (Router2.r_env s !! "ADX_DEFAULT_CLUSTER")) = false ->
   truthy_opt (assoc "database" fields) = false ->
   truthy_str (Router2.r_env s !! "ADX_DEFAULT_DATABASE") = false ->
   Router2.handleToolCall K name (Some fields) s
     = (Throw (McpError InvalidParams Router2.database_required_msg), s)).
Proof.
  unfold Router2.tool_names. intros Hn.
  apply list_elem_of_In in Hn. simpl in Hn.
  destruct Hn as [<-|[<-|[<-|[]]]]; split.
  all: try (intros Hc He; unfold_router2; name_tests;
            cbn [Router.tp_clusterUrl Router2.lp_clusterUrl Router2.sp_clusterUrl];
            rewrite Hc, He; reflexivity).
  all: intros Hg Hd He; unfold_router2; name_tests;
    cbn [Router.tp_clusterUrl Router2.lp_clusterUrl Router2.sp_clusterUrl
         Router.tp_database Router2.lp_database Router2.sp_database];
    rewrite Hg; cbv beta iota zeta; rewrite Hd, He; reflexivity.
Qed.

(** X17. When both parameters resolve, each tool goes to its own method of
    the handler with the arguments passed through untouched:
    [execute_kusto_query] to executeQuery with query, database and
    clusterUrl; [list_tables] to listTables with database and clusterUrl;
    [get_table_schema] to getTableSchema with database, clusterUrl and
    table. The outcome is the method's. *)
Theorem handleToolCall2_dispatches fields s :
  negb (truthy_opt (assoc "clusterUrl" fields))
    && negb (truthy_str (Router2.r_env s !! "ADX_DEFAULT_CLUSTER")) = false ->
  negb (truthy_opt (assoc "database" fields))
    && negb (truthy_str (Router2.r_env s !! "ADX_DEFAULT_DATABASE")) = false ->
  Router2.handleToolCall K "execute_kusto_query" (Some fields) s
    = (Router2.adxHandler_executeQuery K
         {| Router.tp_query := assoc "query" fields;
            Router.tp_database := assoc "database" fields;
            Router.tp_clusterUrl := assoc "clusterUrl" fields |}, s)
  /\ Router2.handleToolCall K "list_tables" (Some fields) s
    = (Router2.adxHandler_listTables K
         {| Router2.lp_database := assoc "database" fields;
            Router2.lp_clusterUrl := assoc "clusterUrl" fields |}, s)
  /\ Router2.handleToolCall K "get_table_schema" (Some fields) s
    = (Router2.adxHandler_getTableSchema K
         {| Router2.sp_database := assoc "database" fields;
            Router2.sp_clusterUrl := assoc "clusterUrl" fields;
            Router2.sp_table := assoc "table" fields |}, s).
Proof.
  intros Hc Hd.
  repeat split; unfold_router2; name_tests;
    cbn [Router.tp_clusterUrl Router2.lp_clusterUrl Router2.sp_clusterUrl
         Router.tp_database Router2.lp_database Router2.sp_database];
    rewrite Hc; cbv beta iota zeta; rewrite Hd; cbv beta iota zeta;
    match goal with |- context [(?o, s)] => destruct o; reflexivity end.
Qed.

(** handleToolCall reads the environment and asks the handler; it does not
    read the clock or write the status. *)
Lemma handleToolCall2_state name args s :
  snd (Router2.handleToolCall K name args s) = s.
Proof.
  unfold_router2.
  destruct (String.eqb name "execute_kusto_query");
    [|destruct (String.eqb name "list_tables");
      [|destruct (String.eqb name "get_table_schema"); [|reflexivity]]];
    (destruct args as [fields|]; simpl; [|reflexivity]);
    (destruct (negb (truthy_opt _) && _); simpl; [reflexivity|]);
    (destruct (negb (truthy_opt _) && _); simpl; reflexivity).
Qed.

(** The request handler of the server with three tools adds nothing to
    handleToolCall: it returns its response or rethrows its exception
    unchanged, reads the clock exactly twice and leaves the environment
    alone. *)
Lemma callToolRequestHandler2_transparent name args s :
  exists st,
    Router2.callToolRequestHandler K name args s
      = (fst (Router2.handleToolCall K name args
                {| Router2.r_env := Router2.r_env s;
                   Router2.clock_reads := S (Router2.clock_reads s);
                   Router2.status := "success" |}),
         {| Router2.r_env := Router2.r_env s;
            Router2.clock_reads := 2 + Router2.clock_reads s;
            Router2.status := st |}).
Proof.
  pose proof (handleToolCall2_state name args
                {| Router2.r_env := Router2.r_env s;
                   Router2.clock_reads := S (Router2.clock_reads s);
                   Router2.status := "success" |}) as Hs.
  unfold Router2.callToolRequestHandler, Router2.now, Router2.set_status,
    try_catch_finally, try_catch, bind, ret, throw.
  cbv beta iota zeta.
  destruct (Router2.handleToolCall K name args _) as [[r|e] s1];
    simpl in Hs; subst s1; simpl; eexists; reflexivity.
Qed.

End Router2Facts.

(** * Properties of start-up *)

Section StartupFacts.


(** X19. When the module URL has a path name, package.json exists at the
    path derived from it, is read and parsed, and its [version] member is
    truthy, the constructor's version is that member, and the two log
    lines written are informational: nothing is warned about. *)
Theorem constructor_version_found (F : Startup.files) s pathname text packageJson v :
  Startup.URL_pathname F (Startup.import_meta_url F) = Ok pathname ->
  Startup.fs_existsSync F (Startup.package_json_path F pathname) = true ->
  Startup.fs_readFileSync F (Startup.package_json_path F pathname) = Ok text ->
  Startup.JSON_parse F text = Ok packageJson ->
  get_prop packageJson "version" = Ok (Some v) ->
  truthy v = true ->
  Startup.constructor_version F s
    = (Ok v,
       {| Startup.actions :=
            (Startup.actions s ++
             [ Startup.LogInfo ("Strategy 1 - Looking for package.json at: "
                                +:+ Startup.package_json_path F pathname);
               Startup.LogInfo ("Found package.json with version: "
                                +:+ Startup.ToString F v) ])%list;
          Startup.clock_reads := Startup.clock_reads s |}).
Proof.
  intros Eu Ex Er Ep Eg Et. unfold Startup.package_json_path in *.
  boot. rewrite Eu. cbv beta iota zeta. cbn [Startup.actions Startup.clock_reads].
  rewrite Ex, Er. cbv beta iota zeta. rewrite Ep. cbv beta iota zeta.
  rewrite Eg. cbv beta iota zeta.
  unfold Startup.or_undefined, Startup.interpolate; simpl. rewrite Et; simpl.
  rewrite Et. rewrite <- app_assoc. reflexivity.
Qed.

(** X20. A failure while looking for the version (no path name, a read
    error, a parse error, a [null] document) is swallowed: it costs one
    warning carrying the exception's message, the version falls back to
    "0.1.5", and the constructor goes on. *)
Theorem constructor_version_swallows (F : Startup.files) s e :
  Startup.URL_pathname F (Startup.import_meta_url F) = Throw e
  \/ (exists pathname,
        Startup.URL_pathname F (Startup.import_meta_url F) = Ok pathname
        /\ Startup.fs_existsSync F (Startup.package_json_path F pathname) = true
        /\ (Startup.fs_readFileSync F (Startup.package_json_path F pathname) = Throw e
            \/ exists text,
                Startup.fs_readFileSync F (Startup.package_json_path F pathname) = Ok text
                /\ (Startup.JSON_parse F text = Throw e
                    \/ exists packageJson,
                        Startup.JSON_parse F text = Ok packageJson
                        /\ get_prop packageJson "version" = Throw e))) ->
  exists s',
    Startup.constructor_version F s = (Ok (JStr "0.1.5"), s')
    /\ last (Startup.actions s') = Some (Startup.LogWarn ("Strategy 1 failed: " +:+ message e)).
Proof.
  unfold Startup.package_json_path.
  intros [Eu | (pathname & Eu & Ex & [Er | (text & Er & [Ep | (pj & Ep & Eg)])])];
    boot; rewrite Eu; cbv beta iota zeta; cbn [Startup.actions Startup.clock_reads].
  - eexists. split; [reflexivity|]. simpl. apply last_snoc.
  - rewrite Ex, Er. cbv beta iota zeta.
    eexists. split; [reflexivity|]. simpl. apply last_snoc.
  - rewrite Ex, Er. cbv beta iota zeta. rewrite Ep. cbv beta iota zeta.
    eexists. split; [reflexivity|]. simpl. apply last_snoc.
  - rewrite Ex, Er. cbv beta iota zeta. rewrite Ep. cbv beta iota zeta.
    rewrite Eg. cbv beta iota zeta.
    eexists. split; [reflexivity|]. simpl. apply last_snoc.
Qed.

(** *** run *)

Section Run.

Context (K : Startup.collaborators) (this : Startup.ADXServer).

(** X21. [run] succeeds exactly when the handler's initialize, the
    transport's constructor and the connection all succeed; otherwise it
    rethrows the exception of the first of them that threw. Either way it
    logs one SERVER_STARTED event first; on success it logs one
    SERVER_CONNECTED event, whose start-up time is the difference of the
    two clock readings, and no SERVER_ERROR; on failure it logs no
    SERVER_CONNECTED and ends with one SERVER_ERROR event carrying the
    exception's message and the phase "startup". *)
Theorem run_outcome s :
  exists ext,
    Startup.run K this s
      = (match Startup.first_failure K with Some e => Throw e | None => Ok tt end,
         {| Startup.actions := (Startup.actions s ++ ext)%list;
            Startup.clock_reads :=
              match Startup.first_failure K with
              | Some _ => 1 + Startup.clock_reads s
              | None => 2 + Startup.clock_reads s
              end |})
    /\ Startup.count_actions Startup.is_ServerStarted ext = 1
    /\ match Startup.first_failure K with
       | Some e =>
           Startup.count_actions Startup.is_ServerConnected ext = 0
           /\ Startup.count_actions Startup.is_ServerError ext = 1
           /\ last ext = Some (Startup.ServerError (Startup.serverName this)
                                 (Startup.version this) (message e) "startup")
       | None =>
           Startup.count_actions Startup.is_ServerError ext = 0
           /\ Startup.count_actions Startup.is_ServerConnected ext = 1
           /\ Startup.ServerConnected (Startup.serverName this) (Startup.version this)
                (Startup.Date_now K (S (Startup.clock_reads s))
                 - Startup.Date_now K (Startup.clock_reads s))%Z "stdio" ∈ ext
       end.
Proof.
  unfold_run. unfold Startup.first_failure.
  destruct (Startup.adxHandler_initialize K) as [[]|e]; simpl.
  2: { rewrite <- !app_assoc; simpl. eexists. split; [reflexivity|].
       repeat split. }
  destruct (Startup.StdioServerTransport_new K) as [[]|e]; simpl.
  2: { rewrite <- !app_assoc; simpl. eexists. split; [reflexivity|].
       repeat split. }
  destruct (Startup.server_connect K) as [[]|e]; simpl.
  2: { rewrite <- !app_assoc; simpl. eexists. split; [reflexivity|].
       repeat split. }
  rewrite <- !app_assoc; simpl. eexists. split; [reflexivity|].
  repeat split. set_solver.
Qed.

(** X22. [run] does things in order and stops at the first failure. The
    request handlers are registered only if the handler's initialize
    succeeded; the server connects only if moreover the transport was
    created, and then both request handlers were registered before. *)
Theorem run_order s o s' :
  Startup.run K this s = (o, s') ->
  exists ext,
    Startup.actions s' = (Startup.actions s ++ ext)%list
    /\ (forall m, Startup.SetRequestHandler m ∈ ext ->
         Startup.adxHandler_initialize K = Ok tt)
    /\ (Startup.Connect ∈ ext ->
         Startup.adxHandler_initialize K = Ok tt
         /\ Startup.StdioServerTransport_new K = Ok tt
         /\ exists before after,
              ext = (before ++ Startup.Connect :: after)%list
              /\ Startup.SetRequestHandler Startup.ListToolsRequestSchema ∈ before
              /\ Startup.SetRequestHandler Startup.CallToolRequestSchema ∈ before
              /\ Startup.NewTransport ∈ before).
Proof.
  unfold_run.
  destruct (Startup.adxHandler_initialize K) as [[]|e]; simpl.
  2: { intros [= <- <-]; simpl. rewrite <- !app_assoc; simpl.
       eexists. split; [reflexivity|]. split.
       - intros m Hm. exfalso.
         repeat (apply elem_of_cons in Hm as [Hm|Hm]; [discriminate|]).
         inversion Hm.
       - intros Hm. exfalso.
         repeat (apply elem_of_cons in Hm as [Hm|Hm]; [discriminate|]).
         inversion Hm. }
  destruct (Startup.StdioServerTransport_new K) as [[]|e]; simpl.
  2: { intros [= <- <-]; simpl. rewrite <- !app_assoc; simpl.
       eexists. split; [reflexivity|]. split; [auto|].
       intros Hm. exfalso.
       repeat (apply elem_of_cons in Hm as [Hm|Hm]; [discriminate|]).
       inversion Hm. }
  set (front := [ Startup.LogInfo ("Starting " +:+ Startup.name this
                                   +:+ " server initialization...");
                  Startup.ServerStarted (Startup.serverName this) (Startup.version this)
                    (length (Startup.tools this));
                  Startup.LogInfo "Initializing handlers...";
                  Startup.HandlerInitialize;
                  Startup.SetRequestHandler Startup.ListToolsRequestSchema;
                  Startup.LogInfoKeys "Tools registered:" (fst <$> Startup.tools this);
                  Startup.SetRequestHandler Startup.CallToolRequestSchema;
                  Startup.LogInfo "Handlers initialized successfully";
                  Startup.LogInfo "Creating stdio transport...";
                  Startup.NewTransport;
                  Startup.LogInfo "Connecting to transport..." ]).
  destruct (Startup.server_connect K) as [[]|e]; simpl;
    intros [= <- <-]; simpl; rewrite <- !app_assoc; simpl;
    (eexists; split; [reflexivity|]); (split; [auto|]);
    intros _; (split; [reflexivity|]); (split; [reflexivity|]);
    exists front; eexists; (split; [reflexivity|]);
    unfold front; set_solver.
Qed.

End Run.

(** *** The main-module test *)

Lemma length_append (a b : string) :
  String.length (a +:+ b) = String.length a + String.length b.
Proof. induction a as [|x a IH]; simpl; [reflexivity | rewrite IH; reflexivity]. Qed.

Lemma drop_chars_append (p suffix : string) :
  Startup.drop_chars (String.length p) (p +:+ suffix) = suffix.
Proof. induction p as [|x p IH]; simpl; [reflexivity | exact IH]. Qed.

Lemma drop_chars_split (n : nat) (s : string) :
  exists p, s = p +:+ Startup.drop_chars n s.
Proof.
  revert s. induction n as [|n IH]; intros s.
  - exists "". reflexivity.
  - destruct s as [|x s]; simpl.
    + exists "". reflexivity.
    + destruct (IH s) as [p Hp]. exists (String x p).
      change (String x s = String x (p +:+ Startup.drop_chars n s)).
      f_equal. exact Hp.
Qed.

Lemma endsWith_spec (s suffix : string) :
  Startup.endsWith s suffix = true <-> exists p, s = p +:+ suffix.
Proof.
  unfold Startup.endsWith. split.
  - intros H. apply andb_true_iff in H as [_ H].
    apply String.eqb_eq in H.
    destruct (drop_chars_split (String.length s - String.length suffix) s) as [p Hp].
    exists p. rewrite H in Hp. exact Hp.
  - intros [p ->]. rewrite length_append.
    apply andb_true_iff. split.
    + apply Nat.leb_le. lia.
    + replace (String.length p + String.length suffix - String.length suffix)
        with (String.length p) by lia.
      rewrite drop_chars_append. apply String.eqb_refl.
Qed.

(** X23. The main-module test holds exactly when [process.argv[1]] is a
    non-empty string and the module URL ends with it, read with every
    backslash turned into a slash. *)
Theorem is_main_module_spec argv1 url :
  Startup.is_main_module argv1 url = true
  <-> exists a p,
        argv1 = Some a /\ a <> ""
        /\ url = p +:+ Startup.replace_backslashes a.
Proof.
  unfold Startup.is_main_module. rewrite andb_true_iff, endsWith_spec. split.
  - intros [Ht [p Hp]]. destruct argv1 as [a|]; simpl in *; [|discriminate].
    exists a, p. repeat split; auto.
    intros ->. discriminate.
  - intros (a & p & -> & Ha & ->). simpl. split; [|eauto].
    destruct (String.eqb_spec a ""); [contradiction | reflexivity].
Qed.

End StartupFacts.

(** * Concrete runs of the further properties *)

Lemma getClient_switching_reconnects_witness :
  exists (r1 r2 : option client) w1 w2 w3 h3,
    r1 <> r2
    /\ trace w2 = (trace w1 ++ connection_calls (formatClusterUrl "b"))%list
    /\ trace w3 = (trace w2 ++ connection_calls (formatClusterUrl "a"))%list
    /\ currentClusterUrl h3 = Some (formatClusterUrl "a").
Proof.
  eexists _, _, _, _, _, _.
  eapply (getClient_switching_reconnects (cooperative "{}") "a" "b" ready no_env).
  - intros cl; discriminate.
  - discriminate.
  - vm_compute; reflexivity.
  - vm_compute; reflexivity.
  - vm_compute; reflexivity.
Defined.

Lemma executeQuery_parameters_override_environment_witness :
  exists r h' w',
    executeQuery (cooperative one_row_payload) both_given (ready, no_env)
      = (r, (h', w'))
    /\ executeQuery (cooperative one_row_payload) both_given
         (ready, {| env := env env_foo_bar; trace := trace no_env |})
       = (r, (h', {| env := env env_foo_bar; trace := trace w' |})).
Proof.
  eexists _, _, _.
  assert (E : executeQuery (cooperative one_row_payload) both_given (ready, no_env)
              = (?[r], (?[h], ?[w]))) by (vm_compute; reflexivity).
  split; [exact E|].
  apply (executeQuery_parameters_override_environment (cooperative one_row_payload)
           both_given ready no_env (env env_foo_bar) _ _ _ eq_refl eq_refl E).
Defined.

Lemma executeQuery_call_bounds_witness :
  exists w' ext,
    trace w' = (trace env_foo_bar ++ ext)%list
    /\ count is_GetToken ext <= 1
    /\ count is_NewClient ext <= 1
    /\ count is_Execute ext <= 1.
Proof.
  eexists.
  eapply (executeQuery_call_bounds (cooperative one_row_payload)
            (only_query "T | take 1") ready env_foo_bar).
  vm_compute; reflexivity.
Defined.

Lemma executeQuery_no_primary_result_witness :
  exists e s',
    executeQuery empty_answer (only_query "T | take 1") (ready, env_foo_bar)
      = (Ok (failure_response empty_answer (only_query "T | take 1") env_foo_bar e), s')
    /\ isError (failure_response empty_answer (only_query "T | take 1") env_foo_bar e)
       = Some true
    /\ success (failure_envelope (only_query "T | take 1") env_foo_bar e) = false.
Proof.
  set (cl := {| client_id := 4; client_url := "https://foo.kusto.windows.net" |}).
  destruct (executeQuery_no_primary_result empty_answer (only_query "T | take 1")
              ready env_foo_bar "foo" "bar" cl
              {| currentClusterUrl := Some "https://foo.kusto.windows.net";
                 kustoClient := Some cl; initialized := true |}
              {| env := env env_foo_bar;
                 trace := connection_calls "https://foo.kusto.windows.net" |}
              {| primaryResults := [] |})
    as (e & E & H1 & H2); try reflexivity; try discriminate.
  exists e. eexists. split; [exact E|]. split; assumption.
Defined.

Lemma executeQuery_falsy_data_witness :
  exists obj s',
    executeQuery null_data (only_query "T | take 1") (ready, env_foo_bar)
      = (Ok {| content := text_content (show_envelope obj); isError := None |}, s')
    /\ success obj = true
    /\ data obj = Some (JArr [])
    /\ r_message obj = Some "Query executed successfully. Retrieved 0 rows.".
Proof.
  set (cl := {| client_id := 4; client_url := "https://foo.kusto.windows.net" |}).
  apply (executeQuery_falsy_data null_data (only_query "T | take 1")
           ready env_foo_bar "foo" "bar" cl
           {| currentClusterUrl := Some "https://foo.kusto.windows.net";
              kustoClient := Some cl; initialized := true |}
           {| env := env env_foo_bar;
              trace := connection_calls "https://foo.kusto.windows.net" |}
           {| primaryResults := ["payload"] |} "payload" []
           (JObj [("name", JStr "PrimaryResult"); ("data", JNull)]) JNull);
    try reflexivity; discriminate.
Defined.

Lemma executeQuery_preserves_witness :
  exists h' w',
    env w' = env env_foo_bar
    /\ initialized h' = initialized ready
    /\ (cache_consistent ready -> cache_consistent h').
Proof.
  eexists _, _.
  eapply (executeQuery_preserves (cooperative one_row_payload)
            (only_query "T | take 1") ready env_foo_bar).
  vm_compute; reflexivity.
Defined.

Lemma executeQuery_reuses_connection_witness :
  exists (h1 : KustoHandler) w1 (h2 : KustoHandler) w2,
    h2 = h1
    /\ count is_GetToken (trace w2) = count is_GetToken (trace w1)
    /\ count is_NewClient (trace w2) = count is_NewClient (trace w1).
Proof.
  eexists _, _, _, _.
  eapply (executeQuery_reuses_connection (cooperative one_row_payload)
            (only_query "T | take 1")
            {| query := "T | count"; database := None;
               clusterUrl := Some "https://foo.kusto.windows.net" |}
            "foo" "https://foo.kusto.windows.net" ready env_foo_bar).
  - reflexivity.
  - reflexivity.
  - reflexivity.
  - vm_compute; reflexivity.
  - reflexivity.
  - vm_compute; reflexivity.
Defined.

Lemma handleToolCall_validates_witness :
  Router.handleToolCall router_collaborators "execute_kusto_query"
      (Some [("query", JStr "T"); ("clusterUrl", JStr "")])
      {| Router.r_env := ∅; Router.clock_reads := 0;
         Router.emitted := []; Router.status := "" |}
    = (Throw (McpError InvalidParams Router.cluster_required_msg),
       {| Router.r_env := ∅; Router.clock_reads := 0;
          Router.emitted := []; Router.status := "" |})
  /\ Router.handleToolCall router_collaborators "execute_kusto_query"
       (Some [("query", JStr "T"); ("clusterUrl", JStr "foo"); ("database", JNull)])
       {| Router.r_env := ∅; Router.clock_reads := 0;
          Router.emitted := []; Router.status := "" |}
     = (Throw (McpError InvalidParams Router.database_required_msg),
        {| Router.r_env := ∅; Router.clock_reads := 0;
           Router.emitted := []; Router.status := "" |}).
Proof.
  split.
  - apply (proj1 (handleToolCall_validates router_collaborators
                    [("query", JStr "T"); ("clusterUrl", JStr "")] _));
      reflexivity.
  - apply (proj2 (handleToolCall_validates router_collaborators
                    [("query", JStr "T"); ("clusterUrl", JStr "foo"); ("database", JNull)] _));
      reflexivity.
Defined.

Lemma handleToolCall_delegates_witness :
  Router.handleToolCall router_collaborators "execute_kusto_query"
      (Some [("query", JStr "T"); ("database", JNum (Qmake 7 1))]) router_start
    = (Throw (JsError "Error" "socket hang up"), router_start).
Proof.
  apply (handleToolCall_delegates router_collaborators
           [("query", JStr "T"); ("database", JNum (Qmake 7 1))] router_start);
    reflexivity.
Defined.

Lemma handleToolCall2_unknown_tool_witness :
  Router2.handleToolCall router2_collaborators "drop_table" None router2_start
    = (Throw (McpError InvalidParams "Unknown tool name: drop_table"), router2_start).
Proof.
  apply (handleToolCall2_unknown_tool router2_collaborators "drop_table" None router2_start).
  unfold Router2.tool_names. intros H.
  repeat (apply elem_of_cons in H as [H|H]; [discriminate|]).
  inversion H.
Defined.

Lemma handleToolCall2_validates_witness :
  Router2.handleToolCall router2_collaborators "list_tables"
      (Some [("database", JStr "bar")]) router2_no_env
    = (Throw (McpError InvalidParams Router2.cluster_required_msg), router2_no_env)
  /\ Router2.handleToolCall router2_collaborators "get_table_schema"
       (Some [("table", JStr "T")]) router2_start
     = (Throw (McpError InvalidParams Router2.database_required_msg), router2_start).
Proof.
  split.
  - apply (proj1 (handleToolCall2_validates router2_collaborators "list_tables"
                    [("database", JStr "bar")] router2_no_env
                    ltac:(unfold Router2.tool_names; set_solver)));
      reflexivity.
  - apply (proj2 (handleToolCall2_validates router2_collaborators "get_table_schema"
                    [("table", JStr "T")] router2_start
                    ltac:(unfold Router2.tool_names; set_solver)));
      reflexivity.
Defined.

Lemma handleToolCall2_dispatches_witness :
  Router2.handleToolCall router2_collaborators "list_tables"
      (Some [("database", JStr "bar")]) router2_start
    = (Ok {| content := text_content "tables"; isError := None |}, router2_start)
  /\ Router2.handleToolCall router2_collaborators "get_table_schema"
       (Some [("database", JStr "bar"); ("table", JStr "T")]) router2_start
     = (Throw (JsError "Error" "socket hang up"), router2_start).
Proof.
  split.
  - apply (proj1 (proj2 (handleToolCall2_dispatches router2_collaborators
                           [("database", JStr "bar")] router2_start eq_refl eq_refl))).
  - apply (proj2 (proj2 (handleToolCall2_dispatches router2_collaborators
                           [("database", JStr "bar"); ("table", JStr "T")]
                           router2_start eq_refl eq_refl))).
Defined.

Lemma constructor_version_found_witness :
  exists s',
    Startup.constructor_version package_files boot_start = (Ok (JStr "1.2.3"), s')
    /\ Startup.actions s'
       = [ Startup.LogInfo "Strategy 1 - Looking for package.json at: /srv/adx/package.json";
           Startup.LogInfo "Found package.json with version: 1.2.3" ].
Proof.
  eexists. split.
  - apply (constructor_version_found package_files boot_start
             "/srv/adx/build/index.js" "package.json text"
             (JObj [("name", JStr "adx"); ("version", JStr "1.2.3")]) (JStr "1.2.3"));
      reflexivity.
  - reflexivity.
Defined.

Lemma constructor_version_swallows_witness :
  exists s',
    Startup.constructor_version unreadable_files boot_start = (Ok (JStr "0.1.5"), s')
    /\ last (Startup.actions s')
       = Some (Startup.LogWarn "Strategy 1 failed: EACCES: permission denied").
Proof.
  apply (constructor_version_swallows unreadable_files boot_start
           (JsError "Error" "EACCES: permission denied")).
  right. exists "/srv/adx/build/index.js".
  split; [reflexivity|]. split; [reflexivity|]. left. reflexivity.
Defined.

Lemma run_order_witness :
  exists s' ext,
    Startup.run no_connection adx boot_start
      = (Throw (JsError "Error" "stdin closed"), s')
    /\ Startup.actions s' = (Startup.actions boot_start ++ ext)%list
    /\ Startup.Connect ∈ ext
    /\ Startup.adxHandler_initialize no_connection = Ok tt.
Proof.
  assert (E : Startup.run no_connection adx boot_start
              = (Throw (JsError "Error" "stdin closed"), ?[s]))
    by (vm_compute; reflexivity).
  destruct (run_order no_connection adx boot_start _ _ E) as (ext & Ha & Hreg & Hconn).
  eexists _, ext. split; [exact E|]. split; [exact Ha|].
  assert (Hin : Startup.Connect ∈ ext).
  { simpl in Ha. rewrite <- Ha. repeat constructor. }
  split; [exact Hin|]. apply (Hconn Hin).
Defined.
